(** * GitGutter: the enablement gate and the action router of [git_gutter.py]

    A shallow embedding of [GitGutterCommand] (the [git_gutter] text command of
    the GitGutter package) and the properties of its enablement gate
    ([is_enabled]) and of its dispatcher ([run], [_handle_event],
    [_handle_subcommand]).

    The command object borrows a view from the editor and talks to a handful
    of collaborators (the git handler, the diff handler, the compare and jump
    commands, the popup).  The collaborators are not part of [git_gutter.py]:
    every call to one of them is recorded, in order, in the list of [Call]s
    an operation performs, and what they answer is supplied by the [Host]. *)

From stdpp Require Import gmap strings list.
From Stdlib Require Import ZArith.

Open Scope string_scope.
Open Scope list_scope.

(** ** Python values

    The values the editor passes as command arguments and keeps in a view's
    settings are JSON-like.  Floating point numbers are left out. *)

#[local] Set Warnings "-register-all".

Inductive pyval :=
| PNone
| PBool (b : bool)
| PInt (z : Z)
| PStr (s : string)
| PList (l : list pyval)
| PDict (d : list (string * pyval)).

(** [bool(v)]: what [if v], [not v] test. *)
Definition truthy (v : pyval) : bool :=
  match v with
  | PNone => false
  | PBool b => b
  | PInt z => negb (z =? 0)%Z
  | PStr s => negb (String.eqb s "")
  | PList l => negb (Nat.eqb (length l) 0)
  | PDict d => negb (Nat.eqb (length d) 0)
  end.

(** [v == s] for a string literal [s]: only a string is equal to a string. *)
Definition py_eq_str (v : pyval) (s : string) : bool :=
  match v with
  | PStr s' => String.eqb s' s
  | _ => false
  end.

(** [v in (s1, ..., sn)] for a tuple of string literals. *)
Definition py_in (v : pyval) (t : list string) : bool :=
  existsb (py_eq_str v) t.

(** [iter(v)]: a list yields its elements, a string its characters, a dict
    its keys; anything else is not iterable ([TypeError]). *)
Definition py_iter (v : pyval) : option (list pyval) :=
  match v with
  | PList l => Some l
  | PStr s => Some (map (fun c => PStr (String c "")) (String.list_ascii_of_string s))
  | PDict d => Some (map (fun kv => PStr (fst kv)) d)
  | _ => None
  end.

(** ** Exceptions and results *)

Inductive exn :=
| KeyError (key : string)
| TypeError
| AssertionError (action : pyval).   (* 'Unhandled sub command "%s"' % action *)

Inductive Result (A : Type) :=
| Ok (a : A)
| Raise (e : exn).
Arguments Ok {A} a.
Arguments Raise {A} e.

(** ** Collaborators *)

(** [GitGutterHandler(view)]: the git handler bound to a view. *)
Inductive GitGutterHandler := Handler (view_id : nat).

(** The calls [git_gutter.py] makes on its collaborators.  Each one names the
    git handler the collaborator was built from. *)
Inductive Call :=
| work_tree_call (h : GitGutterHandler) (validate : bool)
| invalidate_git_file (h : GitGutterHandler)
| show_diff_clear (h : GitGutterHandler)         (* show_diff_handler.clear() *)
| show_diff_run (h : GitGutterHandler)           (* show_diff_handler.run() *)
| settings_set_call (key : string) (v : pyval)   (* view.settings().set(key, v) *)
| jump_to_next_change (h : GitGutterHandler)
| jump_to_prev_change (h : GitGutterHandler)
| compare_commit_run (h : GitGutterHandler)
| compare_file_commit_run (h : GitGutterHandler)
| compare_branch_run (h : GitGutterHandler)
| compare_tag_run (h : GitGutterHandler)
| compare_head_run (h : GitGutterHandler)
| compare_origin_run (h : GitGutterHandler)
| show_compare_run (h : GitGutterHandler)
| show_diff_popup (point : pyval) (h : GitGutterHandler)
                  (highlight_diff flags : pyval).

(** What the editor and the collaborators present at one evaluation of the
    gate: [settings.git_binary_path], [view.window()], [view.is_scratch()],
    [view.is_read_only()], [view.encoding()] and the answer of
    [git_handler.work_tree(validate)]. *)
Record Host := mkHost {
  git_binary_path : pyval;
  window : option nat;
  is_scratch : bool;
  is_read_only : bool;
  encoding : string;
  work_tree : bool -> pyval
}.

(** ** The command object

    [self.git_handler] (from which [self.show_diff_handler] is built),
    [self._enabled], and the settings of the borrowed view,
    [self.view.settings()]. *)
Record Router := mkRouter {
  git_handler : GitGutterHandler;
  _enabled : bool;
  view_settings : gmap string pyval
}.

Definition set_enabled (b : bool) (r : Router) : Router :=
  mkRouter (git_handler r) b (view_settings r).

Definition set_view_settings (s : gmap string pyval) (r : Router) : Router :=
  mkRouter (git_handler r) (_enabled r) s.

(** [GitGutterCommand.__init__]: a command object for the view [view_id],
    whose settings are [s] at that time. *)
Definition __init__ (view_id : nat) (s : gmap string pyval) : Router :=
  mkRouter (Handler view_id) false s.

(** ** A state, error and log monad

    A method takes the command object, returns a value or raises, leaves the
    command object (changed or not) and the calls it made, oldest first.
    What was done before an exception stays done.

    The exceptions are those [git_gutter.py] raises itself.  A call to a
    collaborator is taken to return: an exception raised inside a
    collaborator would propagate through the method that called it, and is
    outside this model. *)
Definition M (A : Type) : Type := Router -> Result A * Router * list Call.

Definition ret {A} (a : A) : M A := fun r => (Ok a, r, []).

Definition bind {A B} (m : M A) (k : A -> M B) : M B :=
  fun r =>
    match m r with
    | (Ok a, r1, t1) =>
        match k a r1 with
        | (o, r2, t2) => (o, r2, t1 ++ t2)
        end
    | (Raise e, r1, t1) => (Raise e, r1, t1)
    end.

Notation "'do' x <- m ; k" := (bind m (fun x => k))
  (at level 10, x name, m at level 100, k at level 200).
Notation "m ;; k" := (bind m (fun _ => k))
  (at level 100, k at level 200, right associativity).

Definition raise {A} (e : exn) : M A := fun r => (Raise e, r, []).
Definition call (c : Call) : M unit := fun r => (Ok tt, r, [c]).
Definition self : M Router := fun r => (Ok r, r, []).
Definition modify (f : Router -> Router) : M unit := fun r => (Ok tt, f r, []).

(** [view.settings().get(key)]: [None] when the key is absent. *)
Definition settings_get (key : string) : M pyval :=
  do r <- self; ret (default PNone (view_settings r !! key)).

(** [view.settings().set(key, v)]. *)
Definition settings_set (key : string) (v : pyval) : M unit :=
  call (settings_set_call key v) ;;
  modify (fun r => set_view_settings (<[key := v]> (view_settings r)) r).

(** [kwargs.get(key, dflt)] and [kwargs[key]]. *)
Definition kwargs_get (kwargs : gmap string pyval) (key : string) (dflt : pyval)
  : pyval := default dflt (kwargs !! key).

Definition kwargs_item (kwargs : gmap string pyval) (key : string) : M pyval :=
  match kwargs !! key with
  | Some v => ret v
  | None => raise (KeyError key)
  end.

(** [for event in v]: the elements, or [TypeError]. *)
Definition iterate (v : pyval) : M (list pyval) :=
  match py_iter v with
  | Some l => ret l
  | None => raise TypeError
  end.

(** ** [GitGutterCommand.is_enabled] *)

(** Lines 38-64: the chain of checks that computes [valid]. *)
Definition compute_valid (host : Host) (kwargs : gmap string pyval) : M bool :=
  if negb (truthy (git_binary_path host)) then ret false
  else if negb (bool_decide (is_Some (window host))) then ret false
  else if is_scratch host || is_read_only host then ret false
  else
    do is_widget <- settings_get "is_widget";
    if truthy is_widget then ret false
    else
      do repl <- settings_get "repl";
      if truthy repl then ret false
      else if String.eqb (encoding host) "Hexadecimal" then ret false
      else
        do events <- iterate (kwargs_get kwargs "event_type" (PList []));
        let validate :=
          existsb (fun event => py_in event ["load"; "activated"; "post-save"])
                  events in
        do h <- (do r <- self; ret (git_handler r));
        call (work_tree_call h validate) ;;
        if negb (truthy (work_tree host validate)) then ret false
        else ret true.

(** Lines 66-75: handle a changed state, return [valid]. *)
Definition handle_changed_state (valid : bool) : M bool :=
  do r <- self;
  if negb (Bool.eqb valid (_enabled r)) then
    (if negb valid then call (show_diff_clear (git_handler r)) else ret tt) ;;
    settings_set "git_gutter_enabled" (PBool valid) ;;
    modify (set_enabled valid) ;;
    ret valid
  else ret valid.

Definition is_enabled (host : Host) (kwargs : gmap string pyval) : M bool :=
  do valid <- compute_valid host kwargs;
  handle_changed_state valid.

(** ** [GitGutterCommand._handle_event] *)
Definition _handle_event (kwargs : gmap string pyval) : M unit :=
  do events <- iterate (kwargs_get kwargs "event_type" (PList []));
  do r <- self;
  (if existsb (fun event => negb (py_in event ["load"; "modified"])) events
   then call (invalidate_git_file (git_handler r))
   else ret tt) ;;
  call (show_diff_run (git_handler r)).

(** ** [GitGutterCommand._handle_subcommand] *)
Definition _handle_subcommand (kwargs : gmap string pyval) : M unit :=
  do action <- kwargs_item kwargs "action";
  do r <- self;
  let h := git_handler r in
  if py_eq_str action "jump_to_next_change" then call (jump_to_next_change h)
  else if py_eq_str action "jump_to_prev_change" then call (jump_to_prev_change h)
  else if py_eq_str action "compare_against_commit" then call (compare_commit_run h)
  else if py_eq_str action "compare_against_file_commit" then
    call (compare_file_commit_run h)
  else if py_eq_str action "compare_against_branch" then call (compare_branch_run h)
  else if py_eq_str action "compare_against_tag" then call (compare_tag_run h)
  else if py_eq_str action "compare_against_head" then call (compare_head_run h)
  else if py_eq_str action "compare_against_origin" then call (compare_origin_run h)
  else if py_eq_str action "show_compare" then call (show_compare_run h)
  else if py_eq_str action "show_diff_popup" then
    do point <- kwargs_item kwargs "point";
    do highlight_diff <- kwargs_item kwargs "highlight_diff";
    do flags <- kwargs_item kwargs "flags";
    call (show_diff_popup point h highlight_diff flags)
  else raise (AssertionError action).

(** ** [GitGutterCommand.run]

    The [edit] argument is not used by the method and is left out. *)
Definition run (kwargs : gmap string pyval) : M unit :=
  if bool_decide (is_Some (kwargs !! "action")) then _handle_subcommand kwargs
  else _handle_event kwargs.

(** [GitGutterBaseCommand.is_enabled]: the mirrored setting, [False] when it
    is absent. *)
Definition base_is_enabled (r : Router) : pyval :=
  default (PBool false) (view_settings r !! "git_gutter_enabled").


(** ** Reading the log of calls *)

Fixpoint count (p : Call -> bool) (calls : list Call) : nat :=
  match calls with
  | [] => 0
  | c :: rest => (if p c then 1 else 0) + count p rest
  end.

Definition is_clear (c : Call) : bool :=
  match c with show_diff_clear _ => true | _ => false end.

Definition is_settings_write (c : Call) : bool :=
  match c with settings_set_call _ _ => true | _ => false end.

Definition is_work_tree_probe (c : Call) : bool :=
  match c with work_tree_call _ _ => true | _ => false end.

(** The six cheap checks of [is_enabled] all pass (lines 41-57). *)
Definition passes_cheap_checks (host : Host) (r : Router) : bool :=
  truthy (git_binary_path host)
  && bool_decide (is_Some (window host))
  && negb (is_scratch host || is_read_only host)
  && negb (truthy (default PNone (view_settings r !! "is_widget")))
  && negb (truthy (default PNone (view_settings r !! "repl")))
  && negb (String.eqb (encoding host) "Hexadecimal").

(** The events of a request that ask for a validation of the work tree. *)
Definition validate_of (events : list pyval) : bool :=
  existsb (fun event => py_in event ["load"; "activated"; "post-save"]) events.

(** ** Sequences of evaluations

    What happens to a command object over time: the editor evaluates the
    gate, on a document and a request that may differ from one evaluation to
    the next, and between two evaluations the editor or another package may
    write or erase a setting of the view. *)
Inductive HostStep :=
| evaluate (host : Host) (kwargs : gmap string pyval)
| write_setting (key : string) (v : pyval)
| erase_setting (key : string).

Definition host_step (s : HostStep) (r : Router) : Router * list Call :=
  match s with
  | evaluate host kwargs =>
      match is_enabled host kwargs r with
      | (_, r', calls) => (r', calls)
      end
  | write_setting key v => (set_view_settings (<[key := v]> (view_settings r)) r, [])
  | erase_setting key => (set_view_settings (delete key (view_settings r)) r, [])
  end.

Fixpoint host_run (steps : list HostStep) (r : Router) : Router * list Call :=
  match steps with
  | [] => (r, [])
  | s :: rest =>
      match host_step s r with
      | (r1, t1) =>
          match host_run rest r1 with
          | (r2, t2) => (r2, t1 ++ t2)
          end
      end
  end.

(** ** The vocabulary of the properties *)

(** The router a transition to [valid] leaves. *)
Definition transitioned (valid : bool) (r : Router) : Router :=
  set_enabled valid
    (set_view_settings (<["git_gutter_enabled" := PBool valid]> (view_settings r)) r).

(** The events of a request that make [_handle_event] drop the cached git
    file. *)
Definition invalidates (events : list pyval) : bool :=
  existsb (fun event => negb (py_in event ["load"; "modified"])) events.

(** The actions that take no parameter, each with the call it stands for. *)
Definition simple_actions : list (string * (GitGutterHandler -> Call)) :=
  [ ("jump_to_next_change", jump_to_next_change);
    ("jump_to_prev_change", jump_to_prev_change);
    ("compare_against_commit", compare_commit_run);
    ("compare_against_file_commit", compare_file_commit_run);
    ("compare_against_branch", compare_branch_run);
    ("compare_against_tag", compare_tag_run);
    ("compare_against_head", compare_head_run);
    ("compare_against_origin", compare_origin_run);
    ("show_compare", show_compare_run) ].

(** The ten action identifiers. *)
Definition action_identifiers : list string :=
  [ "jump_to_next_change"; "jump_to_prev_change"; "compare_against_commit";
    "compare_against_file_commit"; "compare_against_branch";
    "compare_against_tag"; "compare_against_head"; "compare_against_origin";
    "show_compare"; "show_diff_popup" ].

(** The step is not a write or an erasure of the mirrored setting by someone
    else than the gate. *)
Definition leaves_mirror (s : HostStep) : Prop :=
  match s with
  | evaluate _ _ => True
  | write_setting key _ | erase_setting key => key <> "git_gutter_enabled"
  end.

(** Every evaluation of the sequence returns [False]. *)
Fixpoint all_compute_false (steps : list HostStep) (r : Router) : Prop :=
  match steps with
  | [] => True
  | s :: rest =>
      match s with
      | evaluate host kwargs => fst (fst (is_enabled host kwargs r)) = Ok false
      | _ => True
      end
      /\ all_compute_false rest (fst (host_step s r))
  end.

(** The mirrored setting and the cache agree. *)
Definition in_sync (r : Router) : Prop :=
  base_is_enabled r = PBool (_enabled r).

(** ** Sample documents, requests and sessions *)

(** A file of a repository, open in a window. *)
Definition tracked_host : Host :=
  mkHost (PStr "git") (Some 1) false false "UTF-8" (fun _ => PStr "/repo").

(** The same file once it is a scratch view. *)
Definition scratch_host : Host :=
  mkHost (PStr "git") (Some 1) true false "UTF-8" (fun _ => PStr "/repo").

(** A file outside every repository. *)
Definition untracked_host : Host :=
  mkHost (PStr "git") (Some 1) false false "UTF-8" (fun _ => PNone).

Definition on_events (names : list string) : gmap string pyval :=
  {[ "event_type" := PList (map PStr names) ]}.

(** A router that has seen its document eligible. *)
Definition enabled_router : Router :=
  mkRouter (Handler 7) true {[ "git_gutter_enabled" := PBool true ]}.

(** A command object built for a view whose settings still carry
    [git_gutter_enabled = True] (the package was reloaded, or the view was
    restored with its settings). *)
Definition reloaded_router : Router :=
  __init__ 7 {[ "git_gutter_enabled" := PBool true ]}.

(** The request of the fifth scenario of the specification. *)
Definition popup_request : gmap string pyval :=
  {[ "action" := PStr "show_diff_popup"; "point" := PInt 120;
     "highlight_diff" := PBool true; "flags" := PInt 0 ]}.

(** A document that enters a repository, is edited, then becomes scratch. *)
Definition sample_session : list HostStep :=
  [ evaluate untracked_host (on_events ["load"]);
    evaluate tracked_host (on_events ["activated"]);
    write_setting "is_widget" (PBool false);
    evaluate tracked_host (on_events ["modified"]);
    evaluate scratch_host (on_events ["modified"]) ].

(** A document outside every repository, then in one. *)
Definition idle_session : list HostStep :=
  [ evaluate untracked_host (on_events ["load"]);
    evaluate scratch_host (on_events ["modified"]);
    evaluate untracked_host (on_events ["post-save"]) ].

(** ** The invocation of the command by the editor *)

(** Modelled from the spec: the editor's side of an invocation of the
    [git_gutter] command, which is not in [git_gutter.py].  The editor
    evaluates the command's [is_enabled] on the request and calls [run] on
    the same request when the answer is [True] (section 4.2: enablement is
    re-evaluated on every invocation via the gate before any dispatch;
    section 7: ineligibility silently disables dispatch).  An exception of
    the gate ends the invocation. *)
Definition run_command (host : Host) (kwargs : gmap string pyval) : M unit :=
  do valid <- is_enabled host kwargs;
  if valid then run kwargs else ret tt.

(** ** The convenience commands

    [GitGutterBaseCommand] and the nine commands derived from it (lines
    124-175).  Each [run] hands one fixed request to the editor,
    [self.view.run_command(name, args)]; the editor is not part of the file,
    so a command is modelled by the name and the arguments it passes. *)
Inductive BaseCommand :=
| GitGutterShowCompareCommand
| GitGutterCompareHeadCommand
| GitGutterCompareOriginCommand
| GitGutterCompareCommitCommand
| GitGutterCompareFileCommitCommand
| GitGutterCompareBranchCommand
| GitGutterCompareTagCommand
| GitGutterNextChangeCommand
| GitGutterPrevChangeCommand.

Definition base_run (c : BaseCommand) : string * gmap string pyval :=
  match c with
  | GitGutterShowCompareCommand =>
      ("git_gutter", {[ "action" := PStr "show_compare" ]})
  | GitGutterCompareHeadCommand =>
      ("git_gutter", {[ "action" := PStr "compare_against_head" ]})
  | GitGutterCompareOriginCommand =>
      ("git_gutter", {[ "action" := PStr "compare_against_origin" ]})
  | GitGutterCompareCommitCommand =>
      ("git_gutter", {[ "action" := PStr "compare_against_commit" ]})
  | GitGutterCompareFileCommitCommand =>
      ("git_gutter", {[ "action" := PStr "compare_against_file_commit" ]})
  | GitGutterCompareBranchCommand =>
      ("git_gutter", {[ "action" := PStr "compare_against_branch" ]})
  | GitGutterCompareTagCommand =>
      ("git_gutter", {[ "action" := PStr "compare_against_tag" ]})
  | GitGutterNextChangeCommand =>
      ("git_gutter", {[ "action" := PStr "jump_to_next_change" ]})
  | GitGutterPrevChangeCommand =>
      ("git_gutter", {[ "action" := PStr "jump_to_prev_change" ]})
  end.

(** ** More vocabulary on the log of calls *)

(** A write of [True] to a setting. *)
Definition is_enable_write (c : Call) : bool :=
  match c with settings_set_call _ (PBool true) => true | _ => false end.

(** The two calls of [_handle_event]. *)
Definition is_event_call (c : Call) : bool :=
  match c with
  | invalidate_git_file _ | show_diff_run _ => true
  | _ => false
  end.

(** The ten calls of [_handle_subcommand]. *)
Definition is_action_call (c : Call) : bool :=
  match c with
  | jump_to_next_change _ | jump_to_prev_change _ | compare_commit_run _
  | compare_file_commit_run _ | compare_branch_run _ | compare_tag_run _
  | compare_head_run _ | compare_origin_run _ | show_compare_run _
  | show_diff_popup _ _ _ _ => true
  | _ => false
  end.

Definition bool_to_nat (b : bool) : nat := if b then 1 else 0.

(** A window-less view, a read-only view, a view in hexadecimal encoding. *)
Definition detached_host : Host :=
  mkHost (PStr "git") None false false "UTF-8" (fun _ => PStr "/repo").

Definition read_only_host : Host :=
  mkHost (PStr "git") (Some 1) false true "UTF-8" (fun _ => PStr "/repo").

Definition binary_host : Host :=
  mkHost (PStr "git") (Some 1) false false "Hexadecimal" (fun _ => PStr "/repo").

(** A document that goes in and out of a repository twice. *)
Definition busy_session : list HostStep :=
  [ evaluate tracked_host (on_events ["load"]);
    evaluate untracked_host (on_events ["post-save"]);
    write_setting "repl" (PBool true);
    evaluate tracked_host (on_events ["modified"]);
    erase_setting "repl";
    evaluate tracked_host (on_events ["activated"]);
    evaluate scratch_host (on_events ["modified"]);
    evaluate tracked_host (on_events ["activated"]) ].

(** ** Tactics and lemmas on the embedding *)

(** Runs the monad's plumbing, leaving the tests of the code in place. *)
Ltac m_red :=
  cbv beta iota zeta delta
    [bind ret raise call self modify settings_get settings_set iterate
     kwargs_item] in *;
  cbn [app negb andb orb] in *.

(** Decides the six cheap checks one after the other. *)
Ltac cheap_checks host r :=
  destruct (truthy (git_binary_path host)); [|done];
  destruct (bool_decide (is_Some (window host))); [|done];
  destruct (is_scratch host || is_read_only host); [done|];
  m_red;
  destruct (truthy (default PNone (view_settings r !! "is_widget"))); [done|];
  destruct (truthy (default PNone (view_settings r !! "repl"))); [done|];
  destruct (String.eqb (encoding host) "Hexadecimal"); [done|].

Lemma count_app p l1 l2 : count p (l1 ++ l2) = count p l1 + count p l2.
Proof. induction l1 as [|c l1 IH]; simpl; [done | rewrite IH; lia]. Qed.

Lemma py_eq_str_true v s : py_eq_str v s = true <-> v = PStr s.
Proof.
  destruct v; simpl; try (split; [discriminate | congruence]).
  rewrite String.eqb_eq. split; congruence.
Qed.

Lemma py_eq_str_false v s : py_eq_str v s = false <-> v <> PStr s.
Proof.
  rewrite <- py_eq_str_true. by destruct (py_eq_str v s).
Qed.

Lemma existsb_elem_of {A} (f : A -> bool) (l : list A) :
  existsb f l = true <-> exists x, x ∈ l /\ f x = true.
Proof.
  rewrite existsb_exists. by setoid_rewrite list_elem_of_In.
Qed.

Lemma passes_cheap_checks_true host r :
  passes_cheap_checks host r = true <->
  truthy (git_binary_path host) = true
  /\ is_Some (window host)
  /\ is_scratch host = false /\ is_read_only host = false
  /\ truthy (default PNone (view_settings r !! "is_widget")) = false
  /\ truthy (default PNone (view_settings r !! "repl")) = false
  /\ encoding host <> "Hexadecimal".
Proof.
  unfold passes_cheap_checks.
  rewrite !andb_true_iff, !negb_true_iff, orb_false_iff, bool_decide_eq_true.
  rewrite String.eqb_neq. tauto.
Qed.

Lemma passes_cheap_checks_transitioned host valid r :
  passes_cheap_checks host (transitioned valid r) = passes_cheap_checks host r.
Proof.
  unfold passes_cheap_checks, transitioned. simpl.
  by rewrite !lookup_insert_ne.
Qed.

Lemma run_event_mode kwargs :
  kwargs !! "action" = None -> run kwargs = _handle_event kwargs.
Proof.
  intros H. unfold run. rewrite H.
  rewrite bool_decide_eq_false_2; [done|]. by intros [? ?].
Qed.

Lemma run_action_mode kwargs action :
  kwargs !! "action" = Some action -> run kwargs = _handle_subcommand kwargs.
Proof.
  intros H. unfold run. rewrite H.
  by rewrite bool_decide_eq_true_2.
Qed.

Lemma compute_valid_short host kwargs r :
  passes_cheap_checks host r = false ->
  compute_valid host kwargs r = (Ok false, r, []).
Proof.
  unfold passes_cheap_checks, compute_valid.
  cheap_checks host r.
  discriminate.
Qed.

Lemma compute_valid_probe host kwargs r events :
  passes_cheap_checks host r = true ->
  py_iter (kwargs_get kwargs "event_type" (PList [])) = Some events ->
  compute_valid host kwargs r =
    (Ok (truthy (work_tree host (validate_of events))), r,
     [work_tree_call (git_handler r) (validate_of events)]).
Proof.
  unfold passes_cheap_checks, compute_valid.
  cheap_checks host r.
  intros _ Hev.
  rewrite Hev. fold (validate_of events).
  by destruct (truthy (work_tree host (validate_of events))).
Qed.

Lemma compute_valid_not_iterable host kwargs r :
  passes_cheap_checks host r = true ->
  py_iter (kwargs_get kwargs "event_type" (PList [])) = None ->
  compute_valid host kwargs r = (Raise TypeError, r, []).
Proof.
  unfold passes_cheap_checks, compute_valid.
  cheap_checks host r.
  intros _ Hev.
  by rewrite Hev.
Qed.

Lemma handle_changed_state_steady valid r :
  valid = _enabled r ->
  handle_changed_state valid r = (Ok valid, r, []).
Proof.
  intros ->. unfold handle_changed_state. m_red.
  by destruct (_enabled r).
Qed.

Lemma handle_changed_state_transition valid r :
  valid <> _enabled r ->
  handle_changed_state valid r =
    (Ok valid, transitioned valid r,
     (if valid then [] else [show_diff_clear (git_handler r)])
       ++ [settings_set_call "git_gutter_enabled" (PBool valid)]).
Proof.
  intros Hne. unfold handle_changed_state. m_red.
  destruct valid, (_enabled r) eqn:He; try done.
Qed.

(** ** [is_enabled], case by case *)

Lemma is_enabled_short host kwargs r :
  passes_cheap_checks host r = false ->
  is_enabled host kwargs r = handle_changed_state false r.
Proof.
  intros Hc. unfold is_enabled, bind at 1.
  rewrite (compute_valid_short _ _ _ Hc).
  by destruct (handle_changed_state false r) as [[o r'] t].
Qed.

Lemma is_enabled_probe host kwargs r events :
  passes_cheap_checks host r = true ->
  py_iter (kwargs_get kwargs "event_type" (PList [])) = Some events ->
  is_enabled host kwargs r =
    match handle_changed_state (truthy (work_tree host (validate_of events))) r with
    | (o, r', t) => (o, r', work_tree_call (git_handler r) (validate_of events) :: t)
    end.
Proof.
  intros Hc Hev. unfold is_enabled, bind at 1.
  by rewrite (compute_valid_probe _ _ _ _ Hc Hev).
Qed.

Lemma is_enabled_not_iterable host kwargs r :
  passes_cheap_checks host r = true ->
  py_iter (kwargs_get kwargs "event_type" (PList [])) = None ->
  is_enabled host kwargs r = (Raise TypeError, r, []).
Proof.
  intros Hc Hev. unfold is_enabled, bind at 1.
  by rewrite (compute_valid_not_iterable _ _ _ Hc Hev).
Qed.

(** Every evaluation that returns is at most one probe of the work tree
    followed by the handling of the state. *)
Lemma is_enabled_returns host kwargs r valid r' calls :
  is_enabled host kwargs r = (Ok valid, r', calls) ->
  exists probe t,
    forallb is_work_tree_probe probe = true
    /\ length probe <= 1
    /\ handle_changed_state valid r = (Ok valid, r', t)
    /\ calls = probe ++ t.
Proof.
  intros H.
  destruct (passes_cheap_checks host r) eqn:Hc.
  - destruct (py_iter (kwargs_get kwargs "event_type" (PList []))) as [events|] eqn:Hev.
    + rewrite (is_enabled_probe _ _ _ _ Hc Hev) in H.
      destruct (handle_changed_state (truthy (work_tree host (validate_of events))) r)
        as [[o r1] t] eqn:Hh.
      assert (o = Ok (truthy (work_tree host (validate_of events)))) as ->.
      { destruct (decide (truthy (work_tree host (validate_of events)) = _enabled r))
          as [He|He].
        - rewrite (handle_changed_state_steady _ _ He) in Hh. congruence.
        - rewrite (handle_changed_state_transition _ _ He) in Hh. congruence. }
      injection H as <- <- <-.
      exists [work_tree_call (git_handler r) (validate_of events)], t.
      split_and!; [done | simpl; lia | done | done].
    + rewrite (is_enabled_not_iterable _ _ _ Hc Hev) in H. discriminate.
  - rewrite (is_enabled_short _ _ _ Hc) in H. exists [], calls.
    assert (valid = false) as ->.
    { destruct (decide (false = _enabled r)) as [He|He].
      - rewrite (handle_changed_state_steady _ _ He) in H. congruence.
      - rewrite (handle_changed_state_transition _ _ He) in H. congruence. }
    split_and!; [done | simpl; lia | done | done].
Qed.

Lemma probes_no_clear probe :
  forallb is_work_tree_probe probe = true -> count is_clear probe = 0.
Proof.
  induction probe as [|c probe IH]; [done|]. simpl.
  intros [Hc Hp]%andb_prop. rewrite (IH Hp). by destruct c.
Qed.

Lemma probes_no_settings_write probe :
  forallb is_work_tree_probe probe = true -> count is_settings_write probe = 0.
Proof.
  induction probe as [|c probe IH]; [done|]. simpl.
  intros [Hc Hp]%andb_prop. rewrite (IH Hp). by destruct c.
Qed.

(** ** The transition eligible to ineligible (C1) *)

(** C1. Whenever an evaluation of the gate computes [False] while the cached
    value is [True], [clear()] is called exactly once, and the write of the
    mirrored setting comes right after it: the calls are at most one probe of
    the work tree, then [clear()], then the write.  In every other evaluation
    that returns (the computed value is [True], or it equals the cached
    value) [clear()] is not called. *)
Theorem clear_exactly_on_disabling host kwargs r valid r' calls :
  is_enabled host kwargs r = (Ok valid, r', calls) ->
  if _enabled r && negb valid
  then count is_clear calls = 1
       /\ exists probe,
            forallb is_work_tree_probe probe = true
            /\ calls = probe ++ [show_diff_clear (git_handler r);
                                 settings_set_call "git_gutter_enabled" (PBool false)]
  else count is_clear calls = 0.
Proof.
  intros (probe & t & Hp & _ & Hh & ->)%is_enabled_returns.
  rewrite count_app, (probes_no_clear _ Hp).
  destruct (decide (valid = _enabled r)) as [He|He].
  - rewrite (handle_changed_state_steady _ _ He) in Hh.
    injection Hh as <- <-. rewrite <- He. by destruct valid; simpl.
  - rewrite (handle_changed_state_transition _ _ He) in Hh.
    injection Hh as <- <-.
    destruct valid, (_enabled r); simpl; try done.
    split; [done|]. by exists probe.
Qed.

Lemma clear_exactly_on_disabling_witness :
  is_enabled scratch_host (on_events ["activated"]) enabled_router
    = (Ok false, transitioned false enabled_router,
       [show_diff_clear (Handler 7);
        settings_set_call "git_gutter_enabled" (PBool false)])
  /\ count is_clear
       [show_diff_clear (Handler 7);
        settings_set_call "git_gutter_enabled" (PBool false)] = 1.
Proof.
  assert (is_enabled scratch_host (on_events ["activated"]) enabled_router
    = (Ok false, transitioned false enabled_router,
       [show_diff_clear (Handler 7);
        settings_set_call "git_gutter_enabled" (PBool false)])) as H
    by reflexivity.
  split; [exact H|].
  exact (proj1 (clear_exactly_on_disabling _ _ _ _ _ _ H)).
Defined.

(** ** The steady state (C2) *)

(** C2. When the value an evaluation computes equals the cached one, the
    router is left as it was (no write of the mirrored setting, no update of
    the cache) and neither [clear()] nor a write of a setting is among the
    calls.  Hence a second evaluation with the same document and the same
    request returns the same boolean, leaves the router as the first one left
    it, and calls nothing but the probe of the work tree. *)
Theorem steady_state_is_silent host kwargs r valid r' calls :
  is_enabled host kwargs r = (Ok valid, r', calls) ->
  (valid = _enabled r ->
     r' = r /\ count is_clear calls = 0 /\ count is_settings_write calls = 0)
  /\ exists calls2,
       is_enabled host kwargs r' = (Ok valid, r', calls2)
       /\ forallb is_work_tree_probe calls2 = true
       /\ count is_clear calls2 = 0 /\ count is_settings_write calls2 = 0.
Proof.
  intros H. split.
  - intros He.
    destruct (is_enabled_returns _ _ _ _ _ _ H) as (probe & t & Hp & _ & Hh & ->).
    rewrite (handle_changed_state_steady _ _ He) in Hh. injection Hh as <- <-.
    rewrite app_nil_r.
    by rewrite (probes_no_clear _ Hp), (probes_no_settings_write _ Hp).
  - assert (_enabled r' = valid /\ passes_cheap_checks host r' = passes_cheap_checks host r
            /\ git_handler r' = git_handler r) as (He' & Hc' & Hg').
    { destruct (is_enabled_returns _ _ _ _ _ _ H) as (probe & t & _ & _ & Hh & _).
      destruct (decide (valid = _enabled r)) as [He|He].
      - rewrite (handle_changed_state_steady _ _ He) in Hh. by injection Hh as <- <-.
      - rewrite (handle_changed_state_transition _ _ He) in Hh. injection Hh as <- <-.
        by rewrite passes_cheap_checks_transitioned. }
    destruct (passes_cheap_checks host r) eqn:Hc.
    + destruct (py_iter (kwargs_get kwargs "event_type" (PList []))) as [events|] eqn:Hev.
      * rewrite (is_enabled_probe _ _ _ _ Hc Hev) in H.
        rewrite (is_enabled_probe _ _ _ _ Hc' Hev).
        set (v := truthy (work_tree host (validate_of events))) in *.
        assert (v = valid) as Hv.
        { destruct (decide (v = _enabled r)) as [He|He].
          - rewrite (handle_changed_state_steady _ _ He) in H. congruence.
          - rewrite (handle_changed_state_transition _ _ He) in H. congruence. }
        rewrite Hv, (handle_changed_state_steady valid r') by done.
        by eexists.
      * rewrite (is_enabled_not_iterable _ _ _ Hc Hev) in H. discriminate.
    + rewrite (is_enabled_short _ _ _ Hc) in H.
      rewrite (is_enabled_short _ _ _ Hc').
      assert (valid = false) as ->.
      { destruct (decide (false = _enabled r)) as [He|He].
        - rewrite (handle_changed_state_steady _ _ He) in H. congruence.
        - rewrite (handle_changed_state_transition _ _ He) in H. congruence. }
      rewrite (handle_changed_state_steady false r') by done.
      by eexists.
Qed.

Lemma steady_state_is_silent_witness :
  is_enabled tracked_host (on_events ["modified"]) enabled_router
    = (Ok true, enabled_router, [work_tree_call (Handler 7) false])
  /\ exists calls2,
       is_enabled tracked_host (on_events ["modified"]) enabled_router
         = (Ok true, enabled_router, calls2)
       /\ forallb is_work_tree_probe calls2 = true
       /\ count is_clear calls2 = 0 /\ count is_settings_write calls2 = 0.
Proof.
  assert (is_enabled tracked_host (on_events ["modified"]) enabled_router
    = (Ok true, enabled_router, [work_tree_call (Handler 7) false])) as H
    by reflexivity.
  split; [exact H|].
  exact (proj2 (steady_state_is_silent _ _ _ _ _ _ H)).
Defined.

(** ** The work-tree step (C5) *)

Lemma validate_of_true events :
  validate_of events = true <->
  exists e, e ∈ events
            /\ (e = PStr "load" \/ e = PStr "activated" \/ e = PStr "post-save").
Proof.
  unfold validate_of. rewrite existsb_elem_of.
  split; intros (e & He & H); exists e; (split; [done|]).
  - unfold py_in in H. simpl in H.
    rewrite !orb_true_iff, !py_eq_str_true in H. intuition congruence.
  - unfold py_in. simpl.
    rewrite !orb_true_iff, !py_eq_str_true. intuition congruence.
Qed.

(** C5. In an evaluation that passes the six cheap checks, on a request whose
    event set is [events], the work tree is probed once, with [validate] true
    exactly when one of the events is [load], [activated] or [post-save], and
    the evaluation returns what the probe answers: [False] whenever the work
    tree is not resolved. *)
Theorem work_tree_validated_on_lifecycle_events host kwargs r events :
  truthy (git_binary_path host) = true ->
  is_Some (window host) ->
  is_scratch host = false ->
  is_read_only host = false ->
  truthy (default PNone (view_settings r !! "is_widget")) = false ->
  truthy (default PNone (view_settings r !! "repl")) = false ->
  encoding host <> "Hexadecimal" ->
  py_iter (kwargs_get kwargs "event_type" (PList [])) = Some events ->
  exists validate r' t,
    (validate = true <->
       exists e, e ∈ events
                 /\ (e = PStr "load" \/ e = PStr "activated" \/ e = PStr "post-save"))
    /\ is_enabled host kwargs r
       = (Ok (truthy (work_tree host validate)), r',
          work_tree_call (git_handler r) validate :: t)
    /\ count is_work_tree_probe t = 0.
Proof.
  intros H1 H2 H3 H4 H5 H6 H7 Hev.
  assert (passes_cheap_checks host r = true) as Hc
    by by apply passes_cheap_checks_true.
  exists (validate_of events).
  rewrite (is_enabled_probe _ _ _ _ Hc Hev).
  set (v := truthy (work_tree host (validate_of events))).
  destruct (decide (v = _enabled r)) as [He|He].
  - rewrite (handle_changed_state_steady _ _ He).
    exists r, []. split_and!; [apply validate_of_true | done | done].
  - rewrite (handle_changed_state_transition _ _ He).
    eexists _, _. split_and!; [apply validate_of_true | done |].
    by destruct v.
Qed.

Lemma work_tree_validated_on_lifecycle_events_witness :
  exists validate r' t,
    (validate = true <->
       exists e, e ∈ [PStr "load"]
                 /\ (e = PStr "load" \/ e = PStr "activated" \/ e = PStr "post-save"))
    /\ is_enabled untracked_host (on_events ["load"]) (__init__ 7 ∅)
       = (Ok (truthy (work_tree untracked_host validate)), r',
          work_tree_call (Handler 7) validate :: t)
    /\ count is_work_tree_probe t = 0.
Proof.
  apply (work_tree_validated_on_lifecycle_events
           untracked_host (on_events ["load"]) (__init__ 7 ∅) [PStr "load"]);
    try reflexivity.
  - by exists 1.
  - discriminate.
Defined.

(** ** Scratch documents (C6) *)

(** C6, as the code has it. For a scratch document and every request, the
    evaluation returns [False] and does not probe the work tree.  The
    mirrored setting reads [False] afterwards when it agreed with the cached
    value before the evaluation; [False] is written (after [clear()]) when
    the cached value was [True], and nothing is written otherwise. *)
Theorem scratch_is_ineligible host kwargs r :
  is_scratch host = true ->
  exists r' calls,
    is_enabled host kwargs r = (Ok false, r', calls)
    /\ _enabled r' = false
    /\ count is_work_tree_probe calls = 0
    /\ (base_is_enabled r = PBool (_enabled r) -> base_is_enabled r' = PBool false)
    /\ calls = (if _enabled r
                then [show_diff_clear (git_handler r);
                      settings_set_call "git_gutter_enabled" (PBool false)]
                else []).
Proof.
  intros Hs.
  assert (passes_cheap_checks host r = false) as Hc.
  { unfold passes_cheap_checks. rewrite Hs. simpl.
    by rewrite !andb_false_r. }
  rewrite (is_enabled_short _ _ _ Hc).
  destruct (_enabled r) eqn:He.
  - rewrite handle_changed_state_transition by by rewrite He.
    eexists _, _. split_and!; try done.
    intros _. unfold base_is_enabled, transitioned. simpl.
    by rewrite lookup_insert_eq.
  - rewrite handle_changed_state_steady by done.
    eexists _, _. by split_and!.
Qed.

Lemma scratch_is_ineligible_witness :
  exists r' calls,
    is_enabled scratch_host (on_events ["load"]) enabled_router = (Ok false, r', calls)
    /\ _enabled r' = false
    /\ count is_work_tree_probe calls = 0
    /\ (base_is_enabled enabled_router = PBool (_enabled enabled_router) ->
        base_is_enabled r' = PBool false)
    /\ calls = [show_diff_clear (Handler 7);
                settings_set_call "git_gutter_enabled" (PBool false)].
Proof.
  apply (scratch_is_ineligible scratch_host (on_events ["load"]) enabled_router).
  reflexivity.
Defined.

(** C6, as the specification words it, fails.  On a scratch document the
    reloaded router returns [False], writes nothing, and the mirrored setting
    still reads [True]; a router built on a view without the setting returns
    [False] and writes nothing either. *)
Lemma scratch_keeps_stale_flag :
  is_scratch scratch_host = true
  /\ is_enabled scratch_host (on_events ["load"]) reloaded_router
     = (Ok false, reloaded_router, [])
  /\ base_is_enabled reloaded_router = PBool true
  /\ is_enabled scratch_host (on_events ["load"]) (__init__ 7 ∅)
     = (Ok false, __init__ 7 ∅, []).
Proof. by split_and!. Qed.

(** ** Event mode (C3) *)

Lemma invalidates_true events :
  invalidates events = true <->
  exists e, e ∈ events /\ e <> PStr "load" /\ e <> PStr "modified".
Proof.
  unfold invalidates. rewrite existsb_elem_of.
  split; intros (e & He & H); exists e; (split; [done|]).
  - unfold py_in in H. simpl in H.
    rewrite negb_true_iff, !orb_false_iff, !py_eq_str_false in H. tauto.
  - unfold py_in. simpl.
    rewrite negb_true_iff, !orb_false_iff, !py_eq_str_false. tauto.
Qed.

(** C3. A request without [action], whose event set is [events]: the cached
    git file is invalidated exactly when some event is neither [load] nor
    [modified], the invalidation comes before the refresh, and the refresh
    ([show_diff_handler.run()]) is called once in either case.  So the event
    set [modified] alone does not invalidate, and an event set with
    [post-save] in it does. *)
Theorem event_mode_invalidates_then_refreshes kwargs r events :
  kwargs !! "action" = None ->
  py_iter (kwargs_get kwargs "event_type" (PList [])) = Some events ->
  exists invalidate : bool,
    (invalidate = true <->
       exists e, e ∈ events /\ e <> PStr "load" /\ e <> PStr "modified")
    /\ run kwargs r
       = (Ok tt, r,
          (if invalidate then [invalidate_git_file (git_handler r)] else [])
            ++ [show_diff_run (git_handler r)])
    /\ (events = [PStr "modified"] -> invalidate = false)
    /\ (PStr "post-save" ∈ events -> invalidate = true).
Proof.
  intros Ha Hev. exists (invalidates events). split_and!.
  - apply invalidates_true.
  - rewrite (run_event_mode _ Ha). unfold _handle_event. m_red.
    rewrite Hev. fold (invalidates events).
    by destruct (invalidates events).
  - by intros ->.
  - intros Hin. apply invalidates_true. by exists (PStr "post-save").
Qed.

Lemma event_mode_invalidates_then_refreshes_witness :
  exists invalidate : bool,
    (invalidate = true <->
       exists e, e ∈ [PStr "modified"; PStr "post-save"]
                 /\ e <> PStr "load" /\ e <> PStr "modified")
    /\ run (on_events ["modified"; "post-save"]) enabled_router
       = (Ok tt, enabled_router,
          (if invalidate then [invalidate_git_file (Handler 7)] else [])
            ++ [show_diff_run (Handler 7)])
    /\ ([PStr "modified"; PStr "post-save"] = [PStr "modified"] -> invalidate = false)
    /\ (PStr "post-save" ∈ [PStr "modified"; PStr "post-save"] -> invalidate = true).
Proof.
  apply (event_mode_invalidates_then_refreshes
           (on_events ["modified"; "post-save"]) enabled_router
           [PStr "modified"; PStr "post-save"]); reflexivity.
Defined.

(** ** The popup (C9) *)

(** C9. On the action [show_diff_popup]: when [point], [highlight_diff] and
    [flags] are all in the request, [show_diff_popup] is called once, with
    these three values and the router's git handler, and nothing else is
    called; when one of them is missing, the dispatch raises [KeyError] for a
    missing key and calls nothing. *)
Theorem popup_threads_its_parameters kwargs r :
  kwargs !! "action" = Some (PStr "show_diff_popup") ->
  match kwargs !! "point", kwargs !! "highlight_diff", kwargs !! "flags" with
  | Some point, Some highlight_diff, Some flags =>
      run kwargs r
      = (Ok tt, r, [show_diff_popup point (git_handler r) highlight_diff flags])
  | _, _, _ =>
      exists key,
        key ∈ ["point"; "highlight_diff"; "flags"]
        /\ kwargs !! key = None
        /\ run kwargs r = (Raise (KeyError key), r, [])
  end.
Proof.
  intros Ha. rewrite (run_action_mode _ _ Ha).
  unfold _handle_subcommand. m_red. rewrite Ha. simpl.
  destruct (kwargs !! "point") as [point|] eqn:Hp.
  - destruct (kwargs !! "highlight_diff") as [highlight_diff|] eqn:Hh.
    + destruct (kwargs !! "flags") as [flags|] eqn:Hf; [done|].
      exists "flags". split_and!; [|done..]. set_solver.
    + exists "highlight_diff". split_and!; [|done..]. set_solver.
  - exists "point". split_and!; [|done..]. set_solver.
Qed.

Lemma popup_threads_its_parameters_witness :
  run popup_request enabled_router
  = (Ok tt, enabled_router,
     [show_diff_popup (PInt 120) (Handler 7) (PBool true) (PInt 0)]).
Proof.
  apply (popup_threads_its_parameters popup_request enabled_router).
  reflexivity.
Defined.

(** ** Action mode (C4) *)

Lemma action_identifiers_simple :
  action_identifiers = map fst simple_actions ++ ["show_diff_popup"].
Proof. reflexivity. Qed.

(** C4, as the code has it. A request with an [action]: each of the nine
    identifiers without parameters calls its own handler once and nothing
    else; [show_diff_popup] calls the popup once and nothing else when its
    three parameters are in the request; every value that is not one of the
    ten identifiers raises [AssertionError] and calls nothing.  The router
    itself is left unchanged. *)
Theorem each_action_has_one_handler kwargs r action :
  kwargs !! "action" = Some action ->
  (forall name handler,
     (name, handler) ∈ simple_actions -> action = PStr name ->
     run kwargs r = (Ok tt, r, [handler (git_handler r)]))
  /\ (forall point highlight_diff flags,
        action = PStr "show_diff_popup" ->
        kwargs !! "point" = Some point ->
        kwargs !! "highlight_diff" = Some highlight_diff ->
        kwargs !! "flags" = Some flags ->
        run kwargs r
        = (Ok tt, r, [show_diff_popup point (git_handler r) highlight_diff flags]))
  /\ ((forall name, name ∈ action_identifiers -> action <> PStr name) ->
      run kwargs r = (Raise (AssertionError action), r, [])).
Proof.
  intros Ha. rewrite (run_action_mode _ _ Ha).
  unfold _handle_subcommand. m_red. rewrite Ha. split_and!.
  - intros name handler Hin ->. unfold simple_actions in Hin.
    repeat (apply elem_of_cons in Hin as [Hin|Hin];
            [by injection Hin as -> ->|]).
    by apply elem_of_nil in Hin.
  - intros point highlight_diff flags -> Hp Hh Hf. simpl.
    by rewrite Hp, Hh, Hf.
  - intros Hout.
    assert (forall name, name ∈ action_identifiers -> py_eq_str action name = false)
      as Hne by (intros name Hin; by apply py_eq_str_false, Hout).
    unfold action_identifiers in Hne.
    rewrite !Hne; [done | set_solver..].
Qed.

Lemma each_action_has_one_handler_witness :
  ({[ "action" := PStr "show_compare" ]} : gmap string pyval) !! "action"
    = Some (PStr "show_compare")
  /\ run {[ "action" := PStr "show_compare" ]} enabled_router
     = (Ok tt, enabled_router, [show_compare_run (Handler 7)]).
Proof.
  assert (({[ "action" := PStr "show_compare" ]} : gmap string pyval) !! "action"
          = Some (PStr "show_compare")) as Ha by reflexivity.
  split; [exact Ha|].
  apply (proj1 (each_action_has_one_handler _ enabled_router _ Ha)
               "show_compare" show_compare_run); [|reflexivity].
  unfold simple_actions. set_solver.
Defined.

(** C4, as the specification words it, fails for [show_diff_popup]: the
    identifier is one of the ten, and a request that carries it without its
    parameters calls no handler at all. *)
Lemma popup_without_parameters_calls_nothing :
  "show_diff_popup" ∈ action_identifiers
  /\ run {[ "action" := PStr "show_diff_popup" ]} enabled_router
     = (Raise (KeyError "point"), enabled_router, []).
Proof. split; [set_solver | reflexivity]. Qed.

(** Examples: an identifier outside the ten, a value that is no string. *)
Example unknown_action_asserts :
  run {[ "action" := PStr "blame" ]} enabled_router
  = (Raise (AssertionError (PStr "blame")), enabled_router, []).
Proof. reflexivity. Qed.

Example numeric_action_asserts :
  run {[ "action" := PInt 3 ]} enabled_router
  = (Raise (AssertionError (PInt 3)), enabled_router, []).
Proof. reflexivity. Qed.

(** ** [run] and the gate (C8) *)

(** [run] itself does not evaluate the gate: whatever the request, it leaves
    the cached value and the view's settings as they are, and it neither
    probes the work tree, nor calls [clear()], nor writes a setting. *)
Lemma run_does_not_evaluate_the_gate kwargs r :
  exists out calls,
    run kwargs r = (out, r, calls)
    /\ count is_work_tree_probe calls = 0
    /\ count is_clear calls = 0
    /\ count is_settings_write calls = 0.
Proof.
  unfold run. destruct (bool_decide (is_Some (kwargs !! "action"))).
  - unfold _handle_subcommand. m_red.
    destruct (kwargs !! "action") as [action|]; [|by eexists _, _].
    repeat (match goal with
            | |- context [if py_eq_str action ?s then _ else _] =>
                destruct (py_eq_str action s); [by eexists _, _|]
            end).
    m_red.
    destruct (py_eq_str action "show_diff_popup"); [|by eexists _, _].
    destruct (kwargs !! "point"); [|by eexists _, _].
    destruct (kwargs !! "highlight_diff"); [|by eexists _, _].
    destruct (kwargs !! "flags"); by eexists _, _.
  - unfold _handle_event. m_red.
    destruct (py_iter (kwargs_get kwargs "event_type" (PList [])));
      [|by eexists _, _].
    destruct (existsb _ _); by eexists _, _.
Qed.

(** The gate itself dispatches nothing. *)
Lemma is_enabled_does_not_dispatch host kwargs r out r' calls :
  is_enabled host kwargs r = (out, r', calls) ->
  count is_event_call calls = 0 /\ count is_action_call calls = 0.
Proof.
  intros H.
  destruct (passes_cheap_checks host r) eqn:Hc.
  - destruct (py_iter (kwargs_get kwargs "event_type" (PList [])))
      as [events|] eqn:Hev.
    + rewrite (is_enabled_probe _ _ _ _ Hc Hev) in H.
      destruct (decide (truthy (work_tree host (validate_of events)) = _enabled r))
        as [He|He].
      * rewrite (handle_changed_state_steady _ _ He) in H.
        by injection H as _ _ <-.
      * rewrite (handle_changed_state_transition _ _ He) in H.
        injection H as _ _ <-. by destruct (truthy _).
    + rewrite (is_enabled_not_iterable _ _ _ Hc Hev) in H.
      by injection H as _ _ <-.
  - rewrite (is_enabled_short _ _ _ Hc) in H.
    destruct (decide (false = _enabled r)) as [He|He].
    + rewrite (handle_changed_state_steady _ _ He) in H. by injection H as _ _ <-.
    + rewrite (handle_changed_state_transition _ _ He) in H.
      by injection H as _ _ <-.
Qed.

(** C8. In every invocation of the command the gate is evaluated first, on
    the request of the invocation, and the dispatch comes after it: the calls
    of the invocation are the calls of one whole evaluation of the gate,
    none of which is an event or an action call, followed by the calls of
    [run], none of which belongs to the gate.  [run] is reached only when
    that evaluation returned [True]; otherwise nothing is dispatched.  So no
    handler is called without the gate evaluated before it in the same
    invocation. *)
Theorem gate_precedes_every_dispatch host kwargs r out r' calls :
  run_command host kwargs r = (out, r', calls) ->
  exists gate_out r1 gate_calls dispatch_calls,
    is_enabled host kwargs r = (gate_out, r1, gate_calls)
    /\ calls = gate_calls ++ dispatch_calls
    /\ r' = r1
    /\ count is_event_call gate_calls = 0
    /\ count is_action_call gate_calls = 0
    /\ count is_work_tree_probe dispatch_calls = 0
    /\ count is_clear dispatch_calls = 0
    /\ count is_settings_write dispatch_calls = 0
    /\ (gate_out = Ok true -> run kwargs r1 = (out, r1, dispatch_calls))
    /\ (gate_out <> Ok true -> dispatch_calls = []).
Proof.
  intros H. unfold run_command, bind in H.
  destruct (is_enabled host kwargs r) as [[gate_out r1] gate_calls] eqn:Hg.
  destruct (is_enabled_does_not_dispatch _ _ _ _ _ _ Hg) as [Hev Hact].
  destruct gate_out as [[|]|e].
  - destruct (run_does_not_evaluate_the_gate kwargs r1)
      as (o & t & Hrun & Hp & Hc & Hw).
    rewrite Hrun in H. injection H as <- <- <-.
    exists (Ok true), r1, gate_calls, t. by split_and!.
  - injection H as <- <- <-.
    exists (Ok false), r1, gate_calls, []. rewrite app_nil_r. by split_and!.
  - injection H as <- <- <-.
    exists (Raise e), r1, gate_calls, []. rewrite app_nil_r. by split_and!.
Qed.

Lemma gate_precedes_every_dispatch_witness :
  run_command tracked_host (on_events ["post-save"]) (__init__ 7 ∅)
  = (Ok tt, transitioned true (__init__ 7 ∅),
     [work_tree_call (Handler 7) true;
      settings_set_call "git_gutter_enabled" (PBool true);
      invalidate_git_file (Handler 7); show_diff_run (Handler 7)])
  /\ exists gate_out r1 gate_calls dispatch_calls,
       is_enabled tracked_host (on_events ["post-save"]) (__init__ 7 ∅)
       = (gate_out, r1, gate_calls)
       /\ [work_tree_call (Handler 7) true;
           settings_set_call "git_gutter_enabled" (PBool true);
           invalidate_git_file (Handler 7); show_diff_run (Handler 7)]
          = gate_calls ++ dispatch_calls
       /\ transitioned true (__init__ 7 ∅) = r1
       /\ count is_event_call gate_calls = 0
       /\ count is_action_call gate_calls = 0
       /\ count is_work_tree_probe dispatch_calls = 0
       /\ count is_clear dispatch_calls = 0
       /\ count is_settings_write dispatch_calls = 0
       /\ (gate_out = Ok true ->
           run (on_events ["post-save"]) r1 = (Ok tt, r1, dispatch_calls))
       /\ (gate_out <> Ok true -> dispatch_calls = []).
Proof.
  assert (run_command tracked_host (on_events ["post-save"]) (__init__ 7 ∅)
          = (Ok tt, transitioned true (__init__ 7 ∅),
             [work_tree_call (Handler 7) true;
              settings_set_call "git_gutter_enabled" (PBool true);
              invalidate_git_file (Handler 7); show_diff_run (Handler 7)])) as H
    by reflexivity.
  split; [exact H|].
  exact (gate_precedes_every_dispatch _ _ _ _ _ _ H).
Defined.

(** A disabled document: the editor's invocation stops at the gate. *)
Example scratch_invocation_dispatches_nothing :
  run_command scratch_host {[ "action" := PStr "show_compare" ]} enabled_router
  = (Ok tt, transitioned false enabled_router,
     [show_diff_clear (Handler 7);
      settings_set_call "git_gutter_enabled" (PBool false)]).
Proof. reflexivity. Qed.

(** ** Sequences of evaluations (C7, C10) *)

Lemma is_enabled_outcome host kwargs r out r' calls :
  is_enabled host kwargs r = (out, r', calls) ->
  (out = Raise TypeError /\ r' = r /\ calls = [])
  \/ exists valid, out = Ok valid.
Proof.
  intros H.
  destruct (passes_cheap_checks host r) eqn:Hc.
  - destruct (py_iter (kwargs_get kwargs "event_type" (PList []))) as [events|] eqn:Hev.
    + rewrite (is_enabled_probe _ _ _ _ Hc Hev) in H. right.
      destruct (decide (truthy (work_tree host (validate_of events)) = _enabled r))
        as [He|He].
      * rewrite (handle_changed_state_steady _ _ He) in H. injection H as <- _ _.
        by eexists.
      * rewrite (handle_changed_state_transition _ _ He) in H. injection H as <- _ _.
        by eexists.
    + rewrite (is_enabled_not_iterable _ _ _ Hc Hev) in H. injection H as <- <- <-.
      by left.
  - rewrite (is_enabled_short _ _ _ Hc) in H. right.
    destruct (decide (false = _enabled r)) as [He|He].
    + rewrite (handle_changed_state_steady _ _ He) in H. injection H as <- _ _.
      by eexists.
    + rewrite (handle_changed_state_transition _ _ He) in H. injection H as <- _ _.
      by eexists.
Qed.

Lemma handle_changed_state_in_sync valid r r' t :
  in_sync r ->
  handle_changed_state valid r = (Ok valid, r', t) ->
  in_sync r'.
Proof.
  intros Hs Hh.
  destruct (decide (valid = _enabled r)) as [He|He].
  - rewrite (handle_changed_state_steady _ _ He) in Hh. by injection Hh as <- _.
  - rewrite (handle_changed_state_transition _ _ He) in Hh. injection Hh as <- _.
    unfold in_sync, base_is_enabled, transitioned. simpl.
    by rewrite lookup_insert_eq.
Qed.

Lemma host_step_in_sync s r :
  leaves_mirror s -> in_sync r -> in_sync (fst (host_step s r)).
Proof.
  intros Hl Hs. destruct s as [host kwargs|key v|key]; simpl in *.
  - destruct (is_enabled host kwargs r) as [[out r'] calls] eqn:H. simpl.
    destruct (is_enabled_outcome _ _ _ _ _ _ H) as [(_ & -> & _)|[valid ->]]; [done|].
    destruct (is_enabled_returns _ _ _ _ _ _ H) as (_ & t & _ & _ & Hh & _).
    by eapply handle_changed_state_in_sync.
  - unfold in_sync, base_is_enabled in *. simpl. by rewrite lookup_insert_ne.
  - unfold in_sync, base_is_enabled in *. simpl. by rewrite lookup_delete_ne.
Qed.

(** X17. Take a command object built for a view whose
    mirrored setting reads [False] then (absent, or [False]), and any
    sequence of evaluations of the gate, between which anything but the
    mirrored setting may be written to the view's settings.  After the
    sequence, hence after each of its evaluations, the mirrored setting, read
    with default [False], is the cached value. *)
Theorem mirror_agrees_with_cache view_id s0 steps :
  base_is_enabled (__init__ view_id s0) = PBool false ->
  Forall leaves_mirror steps ->
  base_is_enabled (fst (host_run steps (__init__ view_id s0)))
  = PBool (_enabled (fst (host_run steps (__init__ view_id s0)))).
Proof.
  intros H0 Hsteps.
  assert (in_sync (__init__ view_id s0)) as Hs by exact H0.
  clear H0. revert Hs. generalize (__init__ view_id s0).
  induction Hsteps as [|s rest Hl _ IH]; intros r Hs; [done|].
  simpl. pose proof (host_step_in_sync s r Hl Hs) as Hs1.
  destruct (host_step s r) as [r1 t1]. simpl in Hs1.
  specialize (IH r1 Hs1).
  by destruct (host_run rest r1) as [r2 t2].
Qed.

Lemma mirror_agrees_with_cache_witness :
  base_is_enabled (fst (host_run sample_session (__init__ 7 ∅)))
  = PBool (_enabled (fst (host_run sample_session (__init__ 7 ∅)))).
Proof.
  apply (mirror_agrees_with_cache 7 ∅ sample_session).
  - reflexivity.
  - unfold sample_session. repeat constructor; discriminate.
Defined.

(** C7. The code breaks the invariant when the command object is built for
    a view whose settings already hold [git_gutter_enabled = True]:
    [__init__] resets the cache to [False] and leaves the setting; one
    evaluation on a scratch document then computes [False], finds the cache
    equal, writes nothing, and the mirrored setting still reads [True] while
    the cached value is [False]. *)
Lemma reloaded_router_out_of_sync :
  reloaded_router = __init__ 7 {[ "git_gutter_enabled" := PBool true ]}
  /\ host_run [evaluate scratch_host (on_events ["load"])] reloaded_router
     = (reloaded_router, [])
  /\ base_is_enabled reloaded_router = PBool true
  /\ _enabled reloaded_router = false.
Proof. by split_and!. Qed.

Lemma host_step_stays_disabled s r :
  _enabled r = false ->
  match s with
  | evaluate host kwargs => fst (fst (is_enabled host kwargs r)) = Ok false
  | _ => True
  end ->
  _enabled (fst (host_step s r)) = false
  /\ count is_clear (snd (host_step s r)) = 0
  /\ count is_settings_write (snd (host_step s r)) = 0.
Proof.
  intros He Hs. destruct s as [host kwargs|key v|key]; simpl; [|done..].
  destruct (is_enabled host kwargs r) as [[out r'] calls] eqn:H.
  simpl in *. subst out.
  destruct (is_enabled_returns _ _ _ _ _ _ H) as (probe & t & Hp & _ & Hh & ->).
  rewrite handle_changed_state_steady in Hh by done. injection Hh as <- <-.
  rewrite app_nil_r.
  by rewrite (probes_no_clear _ Hp), (probes_no_settings_write _ Hp).
Qed.

Lemma host_run_stays_disabled steps r :
  _enabled r = false ->
  all_compute_false steps r ->
  _enabled (fst (host_run steps r)) = false
  /\ count is_clear (snd (host_run steps r)) = 0
  /\ count is_settings_write (snd (host_run steps r)) = 0.
Proof.
  revert r. induction steps as [|s rest IH]; intros r He Hall; [done|].
  destruct Hall as [Hs Hrest]. simpl.
  destruct (host_step_stays_disabled s r He Hs) as (He1 & Hc1 & Hw1).
  destruct (host_step s r) as [r1 t1]. simpl in *.
  destruct (IH r1 He1 Hrest) as (He2 & Hc2 & Hw2).
  destruct (host_run rest r1) as [r2 t2]. simpl in *.
  rewrite !count_app. split_and!; [done | lia | lia].
Qed.

(** C10. A command object starts with the cached value [False].  Hence,
    over a sequence whose evaluations all return [False], the cached value
    stays [False], [clear()] is never called and no setting is written by the
    gate; and the first evaluation that returns [True] after such a sequence
    writes [True] to the mirrored setting, sets the cache to [True], and does
    not call [clear()]. *)
Theorem fresh_router_starts_disabled view_id s0 :
  _enabled (__init__ view_id s0) = false
  /\ (forall steps,
        all_compute_false steps (__init__ view_id s0) ->
        _enabled (fst (host_run steps (__init__ view_id s0))) = false
        /\ count is_clear (snd (host_run steps (__init__ view_id s0))) = 0
        /\ count is_settings_write (snd (host_run steps (__init__ view_id s0))) = 0)
  /\ (forall steps host kwargs r' calls,
        all_compute_false steps (__init__ view_id s0) ->
        is_enabled host kwargs (fst (host_run steps (__init__ view_id s0)))
          = (Ok true, r', calls) ->
        _enabled r' = true
        /\ base_is_enabled r' = PBool true
        /\ count is_clear calls = 0
        /\ exists probe,
             forallb is_work_tree_probe probe = true
             /\ calls = probe ++ [settings_set_call "git_gutter_enabled" (PBool true)]).
Proof.
  split_and!; [done | intros steps; by apply host_run_stays_disabled |].
  intros steps host kwargs r' calls Hall H.
  destruct (host_run_stays_disabled steps (__init__ view_id s0) eq_refl Hall)
    as (He & _ & _).
  destruct (is_enabled_returns _ _ _ _ _ _ H) as (probe & t & Hp & _ & Hh & ->).
  rewrite handle_changed_state_transition in Hh by by rewrite He.
  injection Hh as <- <-. split_and!.
  - done.
  - unfold base_is_enabled, transitioned. simpl. by rewrite lookup_insert_eq.
  - rewrite count_app, (probes_no_clear _ Hp). done.
  - by exists probe.
Qed.

Lemma fresh_router_starts_disabled_witness :
  all_compute_false idle_session (__init__ 7 ∅)
  /\ (_enabled (fst (host_run idle_session (__init__ 7 ∅))) = false
      /\ count is_clear (snd (host_run idle_session (__init__ 7 ∅))) = 0
      /\ count is_settings_write (snd (host_run idle_session (__init__ 7 ∅))) = 0)
  /\ is_enabled tracked_host (on_events ["activated"])
       (fst (host_run idle_session (__init__ 7 ∅)))
     = (Ok true, transitioned true (__init__ 7 ∅),
        [work_tree_call (Handler 7) true;
         settings_set_call "git_gutter_enabled" (PBool true)])
  /\ (_enabled (transitioned true (__init__ 7 ∅)) = true
      /\ base_is_enabled (transitioned true (__init__ 7 ∅)) = PBool true
      /\ count is_clear
           [work_tree_call (Handler 7) true;
            settings_set_call "git_gutter_enabled" (PBool true)] = 0
      /\ exists probe,
           forallb is_work_tree_probe probe = true
           /\ [work_tree_call (Handler 7) true;
               settings_set_call "git_gutter_enabled" (PBool true)]
              = probe ++ [settings_set_call "git_gutter_enabled" (PBool true)]).
Proof.
  assert (all_compute_false idle_session (__init__ 7 ∅)) as Hall
    by (simpl; repeat split; reflexivity).
  assert (is_enabled tracked_host (on_events ["activated"])
            (fst (host_run idle_session (__init__ 7 ∅)))
          = (Ok true, transitioned true (__init__ 7 ∅),
             [work_tree_call (Handler 7) true;
              settings_set_call "git_gutter_enabled" (PBool true)])) as Hon
    by reflexivity.
  pose proof (fresh_router_starts_disabled 7 ∅) as (_ & Hquiet & Hfirst).
  split; [exact Hall|]. split; [exact (Hquiet _ Hall)|]. split; [exact Hon|].
  exact (Hfirst _ _ _ _ _ Hall Hon).
Defined.

(** ** More on the gate *)

#[local] Set Warnings "-clear-no-such-hyp".

(** Splits an evaluation of the gate into its three ways through the checks. *)
Ltac gate_cases host kwargs r :=
  let Hc := fresh "Hc" in
  let Hev := fresh "Hev" in
  let events := fresh "events" in
  destruct (passes_cheap_checks host r) eqn:Hc;
  [ destruct (py_iter (kwargs_get kwargs "event_type" (PList [])))
      as [events|] eqn:Hev;
    [ rewrite (is_enabled_probe _ _ _ _ Hc Hev) in *
    | rewrite (is_enabled_not_iterable _ _ _ Hc Hev) in * ]
  | rewrite (is_enabled_short _ _ _ Hc) in * ].

(** Splits the handling of the state into the steady case and the change. *)
Ltac state_cases valid r :=
  let He := fresh "He" in
  destruct (decide (valid = _enabled r)) as [He|He];
  [ rewrite (handle_changed_state_steady _ _ He) in *
  | rewrite (handle_changed_state_transition _ _ He) in * ].

Lemma passes_cheap_checks_false host r :
  passes_cheap_checks host r = false <->
  truthy (git_binary_path host) = false
  \/ window host = None
  \/ is_scratch host = true \/ is_read_only host = true
  \/ truthy (default PNone (view_settings r !! "is_widget")) = true
  \/ truthy (default PNone (view_settings r !! "repl")) = true
  \/ encoding host = "Hexadecimal".
Proof.
  unfold passes_cheap_checks.
  rewrite !andb_false_iff, !negb_false_iff, orb_true_iff, bool_decide_eq_false.
  rewrite String.eqb_eq, <- eq_None_not_Some. tauto.
Qed.

(** X1. What an evaluation returns: [True] exactly when the git binary is
    set, the view has a window, is neither scratch nor read-only, carries
    neither [is_widget] nor [repl], is not in hexadecimal encoding, and the
    work tree, probed with the validation the events ask for, is resolved. *)
Theorem gate_true_iff host kwargs r valid r' calls :
  is_enabled host kwargs r = (Ok valid, r', calls) ->
  (valid = true <->
   truthy (git_binary_path host) = true
   /\ is_Some (window host)
   /\ is_scratch host = false /\ is_read_only host = false
   /\ truthy (default PNone (view_settings r !! "is_widget")) = false
   /\ truthy (default PNone (view_settings r !! "repl")) = false
   /\ encoding host <> "Hexadecimal"
   /\ exists events,
        py_iter (kwargs_get kwargs "event_type" (PList [])) = Some events
        /\ truthy (work_tree host (validate_of events)) = true).
Proof.
  intros H. gate_cases host kwargs r.
  - set (v := truthy (work_tree host (validate_of events))) in *.
    assert (valid = v) as -> by (state_cases v r; congruence).
    apply passes_cheap_checks_true in Hc. split.
    + intros Hv. repeat (split; [tauto|]). by exists events.
    + intros (_ & _ & _ & _ & _ & _ & _ & events' & [= <-] & Hv). done.
  - discriminate.
  - assert (valid = false) as -> by (state_cases false r; congruence).
    split; [discriminate|].
    intros Hall. exfalso.
    assert (passes_cheap_checks host r = true) as Hc'
      by (apply passes_cheap_checks_true; tauto).
    congruence.
Qed.

Lemma gate_true_iff_witness :
  is_enabled tracked_host (on_events ["load"]) (__init__ 7 ∅)
  = (Ok true, transitioned true (__init__ 7 ∅),
     [work_tree_call (Handler 7) true;
      settings_set_call "git_gutter_enabled" (PBool true)])
  /\ exists events,
       py_iter (kwargs_get (on_events ["load"]) "event_type" (PList []))
       = Some events
       /\ truthy (work_tree tracked_host (validate_of events)) = true.
Proof.
  assert (is_enabled tracked_host (on_events ["load"]) (__init__ 7 ∅)
          = (Ok true, transitioned true (__init__ 7 ∅),
             [work_tree_call (Handler 7) true;
              settings_set_call "git_gutter_enabled" (PBool true)])) as H
    by reflexivity.
  split; [exact H|].
  apply (proj1 (gate_true_iff _ _ _ _ _ _ H) eq_refl).
Defined.

(** X2. When one of the cheap checks fails (no git binary, no window,
    scratch, read-only, [is_widget], [repl], hexadecimal encoding) the
    evaluation returns [False] without probing the work tree, and it does
    not raise, whatever [event_type] holds. *)
Theorem gate_short_circuits host kwargs r :
  truthy (git_binary_path host) = false
  \/ window host = None
  \/ is_scratch host = true \/ is_read_only host = true
  \/ truthy (default PNone (view_settings r !! "is_widget")) = true
  \/ truthy (default PNone (view_settings r !! "repl")) = true
  \/ encoding host = "Hexadecimal" ->
  exists r' calls,
    is_enabled host kwargs r = (Ok false, r', calls)
    /\ _enabled r' = false
    /\ count is_work_tree_probe calls = 0.
Proof.
  intros Hc%passes_cheap_checks_false.
  rewrite (is_enabled_short _ _ _ Hc).
  state_cases false r; eexists _, _; by split_and!.
Qed.

Lemma gate_short_circuits_witness :
  exists r' calls,
    is_enabled binary_host {[ "event_type" := PInt 5 ]} enabled_router
    = (Ok false, r', calls)
    /\ _enabled r' = false
    /\ count is_work_tree_probe calls = 0.
Proof.
  apply (gate_short_circuits binary_host {[ "event_type" := PInt 5 ]} enabled_router).
  do 6 right. reflexivity.
Defined.

(** An [event_type] that [for] cannot iterate. *)
Lemma scalar_not_iterable kwargs v :
  kwargs !! "event_type" = Some v ->
  v = PNone \/ (exists b, v = PBool b) \/ (exists z, v = PInt z) ->
  py_iter (kwargs_get kwargs "event_type" (PList [])) = None.
Proof.
  intros Hk Hv. unfold kwargs_get. rewrite Hk. simpl.
  by destruct Hv as [-> | [[b ->] | [z ->]]].
Qed.

(** X3. On a document that passes the cheap checks, a request whose
    [event_type] is [None], a boolean or a number makes the gate raise
    [TypeError] before the work tree is probed: nothing has been called, and
    the cached value and the settings are as they were (a document that was
    enabled is neither cleared nor disabled). *)
Theorem gate_refuses_scalar_events host kwargs r v :
  truthy (git_binary_path host) = true ->
  is_Some (window host) ->
  is_scratch host = false ->
  is_read_only host = false ->
  truthy (default PNone (view_settings r !! "is_widget")) = false ->
  truthy (default PNone (view_settings r !! "repl")) = false ->
  encoding host <> "Hexadecimal" ->
  kwargs !! "event_type" = Some v ->
  v = PNone \/ (exists b, v = PBool b) \/ (exists z, v = PInt z) ->
  is_enabled host kwargs r = (Raise TypeError, r, []).
Proof.
  intros H1 H2 H3 H4 H5 H6 H7 Hk Hv.
  apply is_enabled_not_iterable.
  - by apply passes_cheap_checks_true.
  - by eapply scalar_not_iterable.
Qed.

Lemma gate_refuses_scalar_events_witness :
  is_enabled tracked_host {[ "event_type" := PInt 5 ]} enabled_router
  = (Raise TypeError, enabled_router, []).
Proof.
  apply (gate_refuses_scalar_events tracked_host {[ "event_type" := PInt 5 ]}
           enabled_router (PInt 5)); try reflexivity.
  - by exists 1.
  - discriminate.
  - right. right. by exists 5%Z.
Defined.

Lemma handle_changed_state_frame valid r out r' t :
  handle_changed_state valid r = (out, r', t) ->
  git_handler r' = git_handler r
  /\ forall key, key <> "git_gutter_enabled" ->
                 view_settings r' !! key = view_settings r !! key.
Proof.
  intros H. state_cases valid r; injection H as _ <- _; [done|].
  split; [done|]. intros key Hk. simpl. by rewrite lookup_insert_ne.
Qed.

(** X4. Whatever it returns or raises, an evaluation of the gate keeps the
    git handler of the command and every setting of the view but
    [git_gutter_enabled]. *)
Theorem gate_touches_only_the_mirror host kwargs r out r' calls :
  is_enabled host kwargs r = (out, r', calls) ->
  git_handler r' = git_handler r
  /\ forall key, key <> "git_gutter_enabled" ->
                 view_settings r' !! key = view_settings r !! key.
Proof.
  intros H. gate_cases host kwargs r.
  - destruct (handle_changed_state _ r) as [[o r1] t] eqn:Hh.
    injection H as _ <- _. by eapply handle_changed_state_frame.
  - by injection H as _ <- _.
  - by eapply handle_changed_state_frame.
Qed.

Lemma gate_touches_only_the_mirror_witness :
  is_enabled scratch_host (on_events ["load"])
    (mkRouter (Handler 7) true {[ "git_gutter_enabled" := PBool true;
                                  "tab_size" := PInt 4 ]})
  = (Ok false,
     mkRouter (Handler 7) false {[ "git_gutter_enabled" := PBool false;
                                   "tab_size" := PInt 4 ]},
     [show_diff_clear (Handler 7);
      settings_set_call "git_gutter_enabled" (PBool false)])
  /\ ({[ "git_gutter_enabled" := PBool false; "tab_size" := PInt 4 ]}
        : gmap string pyval) !! "tab_size"
     = ({[ "git_gutter_enabled" := PBool true; "tab_size" := PInt 4 ]}
          : gmap string pyval) !! "tab_size".
Proof.
  assert (is_enabled scratch_host (on_events ["load"])
            (mkRouter (Handler 7) true {[ "git_gutter_enabled" := PBool true;
                                          "tab_size" := PInt 4 ]})
          = (Ok false,
             mkRouter (Handler 7) false {[ "git_gutter_enabled" := PBool false;
                                           "tab_size" := PInt 4 ]},
             [show_diff_clear (Handler 7);
              settings_set_call "git_gutter_enabled" (PBool false)])) as H
    by reflexivity.
  split; [exact H|].
  apply (proj2 (gate_touches_only_the_mirror _ _ _ _ _ _ H) "tab_size").
  discriminate.
Defined.

(** X5. After an evaluation that returns, the cached value is the value
    returned; and every write of a setting the evaluation makes is a write
    of that value to [git_gutter_enabled], made only when the cached value
    was the other one. *)
Theorem gate_caches_what_it_returns host kwargs r valid r' calls :
  is_enabled host kwargs r = (Ok valid, r', calls) ->
  _enabled r' = valid
  /\ forall key v,
       settings_set_call key v ∈ calls ->
       key = "git_gutter_enabled" /\ v = PBool valid /\ _enabled r = negb valid.
Proof.
  intros (probe & t & Hp & _ & Hh & ->)%is_enabled_returns.
  assert (forall key v, settings_set_call key v ∈ probe -> False) as Hprobe.
  { intros key v Hin. rewrite forallb_forall in Hp.
    apply list_elem_of_In, Hp in Hin. discriminate. }
  state_cases valid r; injection Hh as <- <-.
  - split; [done|]. intros key v Hin. rewrite app_nil_r in Hin.
    by destruct (Hprobe key v).
  - split; [done|]. intros key v [Hin|Hin]%elem_of_app.
    + by destruct (Hprobe key v).
    + assert (settings_set_call key v
              = settings_set_call "git_gutter_enabled" (PBool valid)) as [= -> ->].
      { destruct valid; set_solver. }
      split_and!; [done..|]. by destruct valid, (_enabled r).
Qed.

Lemma gate_caches_what_it_returns_witness :
  is_enabled scratch_host (on_events ["activated"]) enabled_router
  = (Ok false, transitioned false enabled_router,
     [show_diff_clear (Handler 7);
      settings_set_call "git_gutter_enabled" (PBool false)])
  /\ _enabled (transitioned false enabled_router) = false.
Proof.
  assert (is_enabled scratch_host (on_events ["activated"]) enabled_router
          = (Ok false, transitioned false enabled_router,
             [show_diff_clear (Handler 7);
              settings_set_call "git_gutter_enabled" (PBool false)])) as H
    by reflexivity.
  split; [exact H|].
  exact (proj1 (gate_caches_what_it_returns _ _ _ _ _ _ H)).
Defined.

(** X6. An evaluation of the gate makes at most three calls: at most one
    probe of the work tree, at most one [clear()], at most one write of a
    setting; it never invalidates the git file, never refreshes the diff and
    never calls an action handler. *)
Theorem gate_calls_are_bounded host kwargs r out r' calls :
  is_enabled host kwargs r = (out, r', calls) ->
  length calls <= 3
  /\ count is_work_tree_probe calls <= 1
  /\ count is_clear calls <= 1
  /\ count is_settings_write calls <= 1
  /\ count is_event_call calls = 0
  /\ count is_action_call calls = 0.
Proof.
  intros H. gate_cases host kwargs r.
  - state_cases (truthy (work_tree host (validate_of events))) r;
      injection H as _ _ <-.
    + simpl. split_and!; lia.
    + destruct (truthy _); simpl; split_and!; lia.
  - injection H as _ _ <-. simpl. split_and!; lia.
  - state_cases false r; injection H as _ _ <-; simpl; split_and!; lia.
Qed.

Lemma gate_calls_are_bounded_witness :
  is_enabled untracked_host (on_events ["post-save"]) enabled_router
  = (Ok false, transitioned false enabled_router,
     [work_tree_call (Handler 7) true; show_diff_clear (Handler 7);
      settings_set_call "git_gutter_enabled" (PBool false)])
  /\ length [work_tree_call (Handler 7) true; show_diff_clear (Handler 7);
             settings_set_call "git_gutter_enabled" (PBool false)] <= 3.
Proof.
  assert (is_enabled untracked_host (on_events ["post-save"]) enabled_router
          = (Ok false, transitioned false enabled_router,
             [work_tree_call (Handler 7) true; show_diff_clear (Handler 7);
              settings_set_call "git_gutter_enabled" (PBool false)])) as H
    by reflexivity.
  split; [exact H|].
  exact (proj1 (gate_calls_are_bounded _ _ _ _ _ _ H)).
Defined.

(** X7. [GitGutterBaseCommand.is_enabled] reads the mirrored setting with
    default [False].  When it agreed with the cached value before an
    evaluation of the gate, it answers, after the evaluation, the boolean
    the gate returned. *)
Theorem base_commands_follow_the_gate host kwargs r valid r' calls :
  base_is_enabled r = PBool (_enabled r) ->
  is_enabled host kwargs r = (Ok valid, r', calls) ->
  base_is_enabled r' = PBool valid.
Proof.
  intros Hs (probe & t & _ & _ & Hh & _)%is_enabled_returns.
  state_cases valid r; injection Hh as <- _.
  - by rewrite He.
  - unfold base_is_enabled, transitioned. simpl. by rewrite lookup_insert_eq.
Qed.

Lemma base_commands_follow_the_gate_witness :
  base_is_enabled (__init__ 7 ∅) = PBool (_enabled (__init__ 7 ∅))
  /\ is_enabled tracked_host (on_events ["load"]) (__init__ 7 ∅)
     = (Ok true, transitioned true (__init__ 7 ∅),
        [work_tree_call (Handler 7) true;
         settings_set_call "git_gutter_enabled" (PBool true)])
  /\ base_is_enabled (transitioned true (__init__ 7 ∅)) = PBool true.
Proof.
  assert (base_is_enabled (__init__ 7 ∅) = PBool (_enabled (__init__ 7 ∅))) as Hs
    by reflexivity.
  assert (is_enabled tracked_host (on_events ["load"]) (__init__ 7 ∅)
          = (Ok true, transitioned true (__init__ 7 ∅),
             [work_tree_call (Handler 7) true;
              settings_set_call "git_gutter_enabled" (PBool true)])) as H
    by reflexivity.
  split; [exact Hs|]. split; [exact H|].
  exact (base_commands_follow_the_gate _ _ _ _ _ _ Hs H).
Defined.

(** X8. A request without [event_type] is handled as one with no event: the
    gate does not raise, and if it probes the work tree it does so without
    validation. *)
Theorem gate_without_events_does_not_validate host kwargs r out r' calls :
  kwargs !! "event_type" = None ->
  is_enabled host kwargs r = (out, r', calls) ->
  (exists valid, out = Ok valid)
  /\ forall h validate, work_tree_call h validate ∈ calls -> validate = false.
Proof.
  intros Hk H.
  assert (py_iter (kwargs_get kwargs "event_type" (PList [])) = Some []) as Hnil
    by (unfold kwargs_get; by rewrite Hk).
  gate_cases host kwargs r.
  - assert (events = []) as -> by congruence.
    state_cases (truthy (work_tree host (validate_of []))) r;
      injection H as <- _ <-; (split; [by eexists|]);
      intros h validate Hin.
    + set_solver.
    + destruct (truthy _); set_solver.
  - congruence.
  - state_cases false r; injection H as <- _ <-; (split; [by eexists|]);
      intros h validate Hin; set_solver.
Qed.

Lemma gate_without_events_does_not_validate_witness :
  ({[ "action" := PStr "show_compare" ]} : gmap string pyval) !! "event_type" = None
  /\ is_enabled tracked_host {[ "action" := PStr "show_compare" ]} (__init__ 7 ∅)
     = (Ok true, transitioned true (__init__ 7 ∅),
        [work_tree_call (Handler 7) false;
         settings_set_call "git_gutter_enabled" (PBool true)])
  /\ exists valid : bool, Ok true = Ok valid.
Proof.
  assert (({[ "action" := PStr "show_compare" ]} : gmap string pyval)
            !! "event_type" = None) as Hk by reflexivity.
  assert (is_enabled tracked_host {[ "action" := PStr "show_compare" ]} (__init__ 7 ∅)
          = (Ok true, transitioned true (__init__ 7 ∅),
             [work_tree_call (Handler 7) false;
              settings_set_call "git_gutter_enabled" (PBool true)])) as H
    by reflexivity.
  split; [exact Hk|]. split; [exact H|].
  exact (proj1 (gate_without_events_does_not_validate _ _ _ _ _ _ Hk H)).
Defined.

(** ** More on the dispatch *)

(** X9. A request with neither [action] nor events (no [event_type], or an
    empty list) refreshes the diff once and does not invalidate the git
    file. *)
Theorem event_mode_without_events kwargs r :
  kwargs !! "action" = None ->
  kwargs !! "event_type" = None \/ kwargs !! "event_type" = Some (PList []) ->
  run kwargs r = (Ok tt, r, [show_diff_run (git_handler r)]).
Proof.
  intros Ha Hk. rewrite (run_event_mode _ Ha).
  unfold _handle_event, kwargs_get. m_red.
  by destruct Hk as [-> | ->].
Qed.

Lemma event_mode_without_events_witness :
  run ∅ enabled_router = (Ok tt, enabled_router, [show_diff_run (Handler 7)]).
Proof.
  apply (event_mode_without_events ∅ enabled_router).
  - reflexivity.
  - left. reflexivity.
Defined.

(** X10. In event mode, a request whose [event_type] is [None], a boolean
    or a number makes [run] raise [TypeError] before the git file is
    invalidated and before the diff is refreshed: nothing has been called
    and the router is as it was. *)
Theorem event_mode_refuses_scalar_events kwargs r v :
  kwargs !! "action" = None ->
  kwargs !! "event_type" = Some v ->
  v = PNone \/ (exists b, v = PBool b) \/ (exists z, v = PInt z) ->
  run kwargs r = (Raise TypeError, r, []).
Proof.
  intros Ha Hk Hv. rewrite (run_event_mode _ Ha).
  unfold _handle_event. m_red.
  by rewrite (scalar_not_iterable _ _ Hk Hv).
Qed.

Lemma event_mode_refuses_scalar_events_witness :
  run {[ "event_type" := PNone ]} enabled_router
  = (Raise TypeError, enabled_router, []).
Proof.
  apply (event_mode_refuses_scalar_events {[ "event_type" := PNone ]}
           enabled_router PNone); try reflexivity.
  by left.
Defined.

(** X11. The two modes of [run] do not mix.  With [action] in the request,
    [run] makes at most one call, and it is neither the invalidation of the
    git file nor the refresh; without it, [run] makes at most two calls and
    none of them is an action handler. *)
Theorem modes_do_not_mix kwargs r out r' calls :
  run kwargs r = (out, r', calls) ->
  match kwargs !! "action" with
  | Some _ => length calls <= 1 /\ count is_event_call calls = 0
  | None => length calls <= 2 /\ count is_action_call calls = 0
  end.
Proof.
  intros H. destruct (kwargs !! "action") as [action|] eqn:Ha.
  - rewrite (run_action_mode _ _ Ha) in H.
    unfold _handle_subcommand in H. m_red. rewrite Ha in H.
    repeat (match type of H with
            | context [if py_eq_str action ?s then _ else _] =>
                destruct (py_eq_str action s);
                [injection H as _ _ <-; simpl; split; [lia | done]|]
            end).
    m_red.
    destruct (py_eq_str action "show_diff_popup");
      [|injection H as _ _ <-; simpl; split; [lia | done]].
    destruct (kwargs !! "point");
      [|injection H as _ _ <-; simpl; split; [lia | done]].
    destruct (kwargs !! "highlight_diff");
      [|injection H as _ _ <-; simpl; split; [lia | done]].
    destruct (kwargs !! "flags");
      injection H as _ _ <-; simpl; split; (lia || done).
  - rewrite (run_event_mode _ Ha) in H.
    unfold _handle_event in H. m_red.
    destruct (py_iter (kwargs_get kwargs "event_type" (PList [])));
      [|injection H as _ _ <-; simpl; split; [lia | done]].
    destruct (existsb _ _); injection H as _ _ <-; simpl; split; (lia || done).
Qed.

Lemma modes_do_not_mix_witness :
  run {[ "action" := PStr "show_compare";
         "event_type" := PList [PStr "post-save"] ]} enabled_router
  = (Ok tt, enabled_router, [show_compare_run (Handler 7)])
  /\ length [show_compare_run (Handler 7)] <= 1
  /\ count is_event_call [show_compare_run (Handler 7)] = 0.
Proof.
  assert (run {[ "action" := PStr "show_compare";
                 "event_type" := PList [PStr "post-save"] ]} enabled_router
          = (Ok tt, enabled_router, [show_compare_run (Handler 7)])) as H
    by reflexivity.
  split; [exact H|].
  exact (modes_do_not_mix _ _ _ _ _ H).
Defined.

(** ** Event sets *)

Lemma validate_of_ext l1 l2 :
  (forall e : pyval, e ∈ l1 <-> e ∈ l2) -> validate_of l1 = validate_of l2.
Proof.
  intros Hl. apply Bool.eq_true_iff_eq. unfold validate_of.
  rewrite !existsb_elem_of. by setoid_rewrite Hl.
Qed.

Lemma invalidates_ext l1 l2 :
  (forall e : pyval, e ∈ l1 <-> e ∈ l2) -> invalidates l1 = invalidates l2.
Proof.
  intros Hl. apply Bool.eq_true_iff_eq. unfold invalidates.
  rewrite !existsb_elem_of. by setoid_rewrite Hl.
Qed.

(** X12. The events of a request count as a set: two requests whose event
    lists have the same elements, in whatever order and however often,
    make the gate behave the same, and the event handling too. *)
Theorem events_count_as_a_set host kwargs1 kwargs2 r l1 l2 :
  kwargs1 !! "event_type" = Some (PList l1) ->
  kwargs2 !! "event_type" = Some (PList l2) ->
  (forall e, e ∈ l1 <-> e ∈ l2) ->
  is_enabled host kwargs1 r = is_enabled host kwargs2 r
  /\ (kwargs1 !! "action" = None -> kwargs2 !! "action" = None ->
      run kwargs1 r = run kwargs2 r).
Proof.
  intros H1 H2 Hl.
  assert (py_iter (kwargs_get kwargs1 "event_type" (PList [])) = Some l1) as Hev1
    by (unfold kwargs_get; by rewrite H1).
  assert (py_iter (kwargs_get kwargs2 "event_type" (PList [])) = Some l2) as Hev2
    by (unfold kwargs_get; by rewrite H2).
  split.
  - destruct (passes_cheap_checks host r) eqn:Hc.
    + rewrite (is_enabled_probe _ _ _ _ Hc Hev1), (is_enabled_probe _ _ _ _ Hc Hev2).
      by rewrite (validate_of_ext _ _ Hl).
    + by rewrite !(is_enabled_short _ _ _ Hc).
  - intros Ha1 Ha2. rewrite (run_event_mode _ Ha1), (run_event_mode _ Ha2).
    unfold _handle_event. m_red. rewrite Hev1, Hev2.
    fold (invalidates l1). fold (invalidates l2).
    by rewrite (invalidates_ext _ _ Hl).
Qed.

Lemma events_count_as_a_set_witness :
  is_enabled tracked_host (on_events ["modified"; "post-save"; "modified"])
    (__init__ 7 ∅)
  = is_enabled tracked_host (on_events ["post-save"; "modified"]) (__init__ 7 ∅)
  /\ run (on_events ["modified"; "post-save"; "modified"]) (__init__ 7 ∅)
     = run (on_events ["post-save"; "modified"]) (__init__ 7 ∅).
Proof.
  pose proof (events_count_as_a_set tracked_host
                (on_events ["modified"; "post-save"; "modified"])
                (on_events ["post-save"; "modified"]) (__init__ 7 ∅)
                [PStr "modified"; PStr "post-save"; PStr "modified"]
                [PStr "post-save"; PStr "modified"] eq_refl eq_refl)
    as Hset.
  assert (forall e : pyval,
            e ∈ [PStr "modified"; PStr "post-save"; PStr "modified"]
            <-> e ∈ [PStr "post-save"; PStr "modified"]) as Hl.
  { intros e. rewrite !elem_of_cons, !elem_of_nil. tauto. }
  destruct (Hset Hl) as [Hgate Hrun].
  split; [exact Hgate|]. apply Hrun; reflexivity.
Defined.

(** The characters of a string, as [for event in s] yields them: none is
    the name of an event. *)
Lemma char_never_validates c :
  py_in (PStr (String c "")) ["load"; "activated"; "post-save"] = false.
Proof.
  unfold py_in. simpl.
  by repeat match goal with |- context [Ascii.eqb ?a ?b] =>
                              destruct (Ascii.eqb a b) end.
Qed.

Lemma char_always_invalidates c :
  py_in (PStr (String c "")) ["load"; "modified"] = false.
Proof.
  unfold py_in. simpl.
  by repeat match goal with |- context [Ascii.eqb ?a ?b] =>
                              destruct (Ascii.eqb a b) end.
Qed.

Lemma chars_never_validate s :
  validate_of (map (fun c => PStr (String c "")) (String.list_ascii_of_string s))
  = false.
Proof.
  unfold validate_of.
  induction (String.list_ascii_of_string s) as [|c cs IH]; [done|].
  cbn [map existsb]. by rewrite char_never_validates, IH.
Qed.

Lemma chars_always_invalidate s :
  invalidates (map (fun c => PStr (String c "")) (String.list_ascii_of_string s))
  = negb (String.eqb s "").
Proof.
  destruct s as [|c s]; [done|].
  unfold invalidates. cbn [String.list_ascii_of_string map existsb].
  by rewrite char_always_invalidates.
Qed.

(** X13. An [event_type] that is a bare string instead of a list of names
    is iterated character by character, and no character is an event name:
    the gate then never asks for a validation of the work tree, and the
    event handling invalidates the git file for every string but the empty
    one, ['load'] and ['modified'] included. *)
Theorem bare_string_is_no_event host kwargs r s :
  kwargs !! "event_type" = Some (PStr s) ->
  (forall out r' calls,
     is_enabled host kwargs r = (out, r', calls) ->
     forall h validate, work_tree_call h validate ∈ calls -> validate = false)
  /\ (kwargs !! "action" = None ->
      run kwargs r
      = (Ok tt, r,
         (if String.eqb s "" then [] else [invalidate_git_file (git_handler r)])
           ++ [show_diff_run (git_handler r)])).
Proof.
  intros Hk.
  assert (py_iter (kwargs_get kwargs "event_type" (PList []))
          = Some (map (fun c => PStr (String c "")) (String.list_ascii_of_string s)))
    as Hev by (unfold kwargs_get; by rewrite Hk).
  split.
  - intros out r' calls H h validate Hin.
    destruct (passes_cheap_checks host r) eqn:Hc.
    + rewrite (is_enabled_probe _ _ _ _ Hc Hev), chars_never_validate in H.
      state_cases (truthy (work_tree host false)) r; injection H as _ _ <-.
      * set_solver.
      * destruct (truthy _); set_solver.
    + rewrite (is_enabled_short _ _ _ Hc) in H.
      state_cases false r; injection H as _ _ <-; set_solver.
  - intros Ha. rewrite (run_event_mode _ Ha).
    unfold _handle_event. m_red. rewrite Hev.
    fold (invalidates
            (map (fun c => PStr (String c "")) (String.list_ascii_of_string s))).
    rewrite chars_always_invalidate.
    by destruct (String.eqb s "").
Qed.

Lemma bare_string_is_no_event_witness :
  ({[ "event_type" := PStr "load" ]} : gmap string pyval) !! "event_type"
  = Some (PStr "load")
  /\ run {[ "event_type" := PStr "load" ]} enabled_router
     = (Ok tt, enabled_router,
        [invalidate_git_file (Handler 7); show_diff_run (Handler 7)]).
Proof.
  assert (({[ "event_type" := PStr "load" ]} : gmap string pyval) !! "event_type"
          = Some (PStr "load")) as Hk by reflexivity.
  split; [exact Hk|].
  apply (proj2 (bare_string_is_no_event tracked_host _ enabled_router _ Hk)).
  reflexivity.
Defined.

(** ** The convenience commands *)

(** X14. Each of the nine convenience commands sends the [git_gutter]
    command a request that holds nothing but one parameterless action; when
    [run] gets that request it does not raise, leaves the router as it is
    and calls the handler of that action, once, and nothing else. *)
Theorem base_command_reaches_its_handler c r :
  exists name handler,
    base_run c = ("git_gutter", {[ "action" := PStr name ]})
    /\ (name, handler) ∈ simple_actions
    /\ run (snd (base_run c)) r = (Ok tt, r, [handler (git_handler r)]).
Proof.
  unfold simple_actions.
  destruct c; eexists _, _; (split_and!; [reflexivity | | reflexivity]);
    rewrite !elem_of_cons; tauto.
Qed.

(** X15. Every parameterless action of the router has its convenience
    command, two commands never send the same request, and no command sends
    [show_diff_popup]. *)
Theorem base_commands_cover_the_simple_actions :
  (forall name handler,
     (name, handler) ∈ simple_actions ->
     exists c, base_run c = ("git_gutter", {[ "action" := PStr name ]}))
  /\ (forall c1 c2, base_run c1 = base_run c2 -> c1 = c2)
  /\ (forall c, snd (base_run c) !! "action" <> Some (PStr "show_diff_popup")).
Proof.
  split_and!.
  - intros name handler Hin. unfold simple_actions in Hin.
    repeat (apply elem_of_cons in Hin as [[= -> ->]|Hin];
            [by unshelve eexists; [constructor|]|]).
    by apply elem_of_nil in Hin.
  - intros c1 c2 H.
    apply (f_equal (fun p : string * gmap string pyval => snd p !! "action")) in H.
    by destruct c1, c2.
  - by intros [].
Qed.

Lemma base_commands_cover_the_simple_actions_witness :
  ("compare_against_tag", compare_tag_run) ∈ simple_actions
  /\ exists c, base_run c = ("git_gutter", {[ "action" := PStr "compare_against_tag" ]}).
Proof.
  assert (("compare_against_tag", compare_tag_run) ∈ simple_actions) as Hin
    by (unfold simple_actions; rewrite !elem_of_cons; tauto).
  split; [exact Hin|].
  exact (proj1 base_commands_cover_the_simple_actions _ _ Hin).
Defined.

(** ** Enablings and clearings over time *)

Lemma handle_changed_state_balance valid r out r' t :
  handle_changed_state valid r = (out, r', t) ->
  count is_enable_write t + bool_to_nat (_enabled r)
  = count is_clear t + bool_to_nat (_enabled r').
Proof.
  intros H. state_cases valid r; injection H as _ <- <-; [done|].
  by destruct valid, (_enabled r).
Qed.

Lemma host_step_balance s r :
  count is_enable_write (snd (host_step s r)) + bool_to_nat (_enabled r)
  = count is_clear (snd (host_step s r)) + bool_to_nat (_enabled (fst (host_step s r))).
Proof.
  destruct s as [host kwargs|key v|key]; simpl; [|done..].
  destruct (is_enabled host kwargs r) as [[out r'] calls] eqn:H. simpl.
  gate_cases host kwargs r.
  - destruct (handle_changed_state _ r) as [[o r1] t] eqn:Hh.
    injection H as _ <- <-. simpl.
    by apply handle_changed_state_balance in Hh.
  - by injection H as _ <- <-.
  - by apply handle_changed_state_balance in H.
Qed.

Lemma host_run_balance steps r :
  count is_enable_write (snd (host_run steps r)) + bool_to_nat (_enabled r)
  = count is_clear (snd (host_run steps r))
    + bool_to_nat (_enabled (fst (host_run steps r))).
Proof.
  revert r. induction steps as [|s rest IH]; intros r; [done|].
  simpl. pose proof (host_step_balance s r) as Hs.
  destruct (host_step s r) as [r1 t1]. simpl in Hs.
  specialize (IH r1). destruct (host_run rest r1) as [r2 t2]. simpl in *.
  rewrite !count_app. lia.
Qed.

(** X16. Over any sequence of evaluations and foreign writes of settings
    that starts at a new command object, the gate has written [True] as
    often as it has called [clear()], once more when the cached value is
    now [True]: every [clear()] answers an earlier enabling, and no enabling
    is cleared twice. *)
Theorem clears_answer_enablings view_id s0 steps :
  count is_enable_write (snd (host_run steps (__init__ view_id s0)))
  = count is_clear (snd (host_run steps (__init__ view_id s0)))
    + bool_to_nat (_enabled (fst (host_run steps (__init__ view_id s0)))).
Proof.
  pose proof (host_run_balance steps (__init__ view_id s0)) as H.
  simpl in H. lia.
Qed.

Example busy_session_balance :
  count is_enable_write (snd (host_run busy_session (__init__ 7 ∅))) = 3
  /\ count is_clear (snd (host_run busy_session (__init__ 7 ∅))) = 2
  /\ _enabled (fst (host_run busy_session (__init__ 7 ∅))) = true.
Proof. by split_and!. Qed.
